(** * Backbone resolver of [flash/vision/backbones.py]

    A shallow embedding of the three resolver functions

    - [backbone_and_num_features]
    - [bolts_backbone_and_num_features]
    - [torchvision_backbone_and_num_features]

    together with the name tables they consult.  The two model zoos
    (torchvision and lightning-bolts) are external: they appear as a
    [World] record whose fields answer the calls the source makes, and
    every call into them is recorded in a trace of [Event]s, so that
    "fails before any network is built or loaded" is a statement about
    the trace. *)

From stdpp Require Import base strings list gmap pretty.
From Stdlib Require Import ZArith.

Local Open Scope string_scope.
Local Open Scope Z_scope.
Local Open Scope list_scope.

(** ** Python values *)

(** The objects that flow through the module: scalars, and [nn.Module]
    instances.  A module instance carries its class name, whether its
    class derives from one of the [torch.nn] containers that index and
    iterate over their children ([nn.Sequential], [nn.ModuleList]), and
    its attributes in definition order; the attributes that are
    themselves modules are its direct children (PyTorch's [_modules]).
    Objects are values here: two children are never the same object. *)
#[warnings="-register-all"]
Inductive Obj : Type :=
| PyNone
| PyBool (b : bool)
| PyInt (z : Z)
| PyStr (s : string)
| PyModule (cls : string) (container : bool) (members : list (string * Obj)).

Definition is_module (o : Obj) : bool :=
  match o with PyModule _ _ _ => true | _ => false end.

(** Exceptions.  [LibraryError] stands for whatever an external library
    raises from inside a constructor or a checkpoint loader; the module
    has no [try], so it reaches the caller unchanged. *)
Inductive Exn : Type :=
| ValueError (msg : string)
| MisconfigurationException (msg : string)
| TypeError
| AttributeError (attr : string)
| IndexError
| LibraryError (what : string).

(** Calls that leave the module. *)
Inductive Event : Type :=
| EvConstruct (model_name : string) (pretrained : Obj)
| EvLoadCheckpoint (cls : string) (path_or_url : string) (strict : bool).

(** ** The effect monad: a trace of external calls and a result or an
    exception *)

Definition M (A : Type) : Type := (list Event * (Exn + A))%type.

Definition ret {A} (a : A) : M A := ([], inr a).
Definition raise {A} (e : Exn) : M A := ([], inl e).
Definition bind {A B} (m : M A) (f : A → M B) : M B :=
  match m with
  | (t, inl e) => (t, inl e)
  | (t, inr a) => let '(t', r) := f a in (t ++ t', r)
  end.

Declare Scope py_scope.
Delimit Scope py_scope with py.
Notation "x <- m ;; k" := (bind m (fun x => k))
  (at level 100, m at next level, right associativity) : py_scope.
Local Open Scope py_scope.

Definition trace {A} (m : M A) : list Event := fst m.
Definition outcome {A} (m : M A) : Exn + A := snd m.

(** ** The external libraries *)

Record World : Type := {
  (** [pytorch_lightning.utilities._BOLTS_AVAILABLE] *)
  _BOLTS_AVAILABLE : bool;
  (** [getattr(torchvision.models, name, None)]: [None] when the
      attribute is absent; otherwise what calling it with
      [pretrained=...] does. *)
  torchvision_models : string → option (Obj → string + Obj);
  (** [SimCLR.load_from_checkpoint(path_or_url, strict=...)] *)
  SimCLR_load_from_checkpoint : string → bool → string + Obj;
  (** [SwAV.load_from_checkpoint(path_or_url, strict=...)] *)
  SwAV_load_from_checkpoint : string → bool → string + Obj;
}.

Definition from_library (r : string + Obj) : Exn + Obj :=
  match r with
  | inl what => inl (LibraryError what)
  | inr o => inr o
  end.

(** [model(pretrained=pretrained)] *)
Definition construct (model_name : string) (model : Obj → string + Obj)
    (pretrained : Obj) : M Obj :=
  ([EvConstruct model_name pretrained], from_library (model pretrained)).

(** ** Attribute access and [nn.Module] operations *)

Fixpoint assoc (name : string) (ms : list (string * Obj)) : option Obj :=
  match ms with
  | [] => None
  | (k, v) :: ms' => if decide (k = name) then Some v else assoc name ms'
  end.

(** [o.name] *)
Definition getattr (o : Obj) (name : string) : M Obj :=
  match o with
  | PyModule _ _ ms =>
      match assoc name ms with
      | Some v => ret v
      | None => raise (AttributeError name)
      end
  | _ => raise (AttributeError name)
  end.

(** The direct child modules, in registration order. *)
Definition child_modules (ms : list (string * Obj)) : list Obj :=
  filter (λ o, is_module o = true) (ms.*2).

(** [list(o.children())] *)
Definition children (o : Obj) : M (list Obj) :=
  match o with
  | PyModule _ _ ms => ret (child_modules ms)
  | _ => raise (AttributeError "children")
  end.

(** The characters of a [str], each a [str] of length one. *)
Definition characters (s : string) : list Obj :=
  (λ c, PyStr (String c EmptyString)) <$> String.list_ascii_of_string s.

(** What iterating over [o] yields. *)
Definition items (o : Obj) : M (list Obj) :=
  match o with
  | PyModule _ true ms => ret (child_modules ms)
  | PyStr s => ret (characters s)
  | _ => raise TypeError
  end.

(** [o[-1]] *)
Definition getitem_last (o : Obj) : M Obj :=
  xs <- items o ;;
  match last xs with
  | Some x => ret x
  | None => raise IndexError
  end.

(** The module [nn.Sequential] builds from [mods]: the children are
    registered under their position, written in decimal. *)
Definition Sequential (mods : list Obj) : Obj :=
  PyModule "Sequential" true (imap (λ i m, (pretty i, m)) mods).

(** The call of [nn.Sequential] on the positional arguments [mods]; it
    refuses an argument that is not a module. *)
Definition nn_Sequential (mods : list Obj) : M Obj :=
  if forallb is_module mods then ret (Sequential mods) else raise TypeError.

(** [nn.ReLU(inplace=True)] *)
Definition ReLU_inplace : Obj :=
  PyModule "ReLU" false [("inplace", PyBool true)].

(** [l[:-2]] *)
Definition all_but_last_two {A} (l : list A) : list A :=
  take (length l - 2)%nat l.

(** ** The name tables *)

Definition ROOT_S3_BUCKET : string :=
  "https://pl-bolts-weights.s3.us-east-2.amazonaws.com".

Definition MOBILENET_MODELS : list string := ["mobilenet_v2"].
Definition VGG_MODELS : list string := ["vgg11"; "vgg13"; "vgg16"; "vgg19"].
Definition RESNET_MODELS : list string :=
  ["resnet18"; "resnet34"; "resnet50"; "resnet101"; "resnet152";
   "resnext50_32x4d"; "resnext101_32x8d"].
Definition DENSENET_MODELS : list string :=
  ["densenet121"; "densenet169"; "densenet161"].
Definition TORCHVISION_MODELS : list string :=
  MOBILENET_MODELS ++ VGG_MODELS ++ RESNET_MODELS ++ DENSENET_MODELS.

Definition BOLTS_MODELS : list string := ["simclr-imagenet"; "swav-imagenet"].

(** What a resolver hands back: the feature extractor and its width. *)
Definition Resolved : Type := (Obj * Obj)%type.

(** ** [bolts_backbone_and_num_features] *)

Definition load_from_checkpoint (cls : string)
    (loader : string → bool → string + Obj)
    (path_or_url : string) (strict : bool) : M Obj :=
  ([EvLoadCheckpoint cls path_or_url strict],
   from_library (loader path_or_url strict)).

Definition simclr_imagenet_url : string :=
  ROOT_S3_BUCKET +:+ "/simclr/bolts_simclr_imagenet/simclr_imagenet.ckpt".

Definition swav_imagenet_url : string :=
  ROOT_S3_BUCKET +:+ "/swav/swav_imagenet/swav_imagenet.pth.tar".

Definition load_simclr_imagenet (w : World) (path_or_url : string)
    : M Resolved :=
  simclr <- load_from_checkpoint "SimCLR" (SimCLR_load_from_checkpoint w)
              path_or_url false ;;
  encoder <- getattr simclr "encoder" ;;
  layers <- children encoder ;;
  backbone <- nn_Sequential (all_but_last_two layers) ;;
  ret (backbone, PyInt 2048).

Definition load_swav_imagenet (w : World) (path_or_url : string)
    : M Resolved :=
  swav <- load_from_checkpoint "SwAV" (SwAV_load_from_checkpoint w)
            path_or_url true ;;
  model <- getattr swav "model" ;;
  layers <- children model ;;
  backbone <- nn_Sequential (all_but_last_two layers) ;;
  ret (backbone, PyInt 3000).

(** The local dict [models]; its values are the two loaders, to be
    called without argument, that is with their default location. *)
Definition models (w : World) : gmap string (unit → M Resolved) :=
  {[ "simclr-imagenet" := (λ _ : unit, load_simclr_imagenet w simclr_imagenet_url);
     "swav-imagenet" := (λ _ : unit, load_swav_imagenet w swav_imagenet_url) ]}.

Definition bolts_not_installed : string :=
  "Bolts isn't installed. Please, use ``pip install lightning-bolts``.".

Definition not_supported_yet (model_name : string) : string :=
  model_name +:+ " is not supported yet.".

Definition bolts_backbone_and_num_features (w : World) (model_name : string)
    : M Resolved :=
  if negb (_BOLTS_AVAILABLE w) then
    raise (MisconfigurationException bolts_not_installed)
  else
    match models w !! model_name with
    | Some load => load tt
    | None => raise (ValueError (not_supported_yet model_name))
    end.

(** ** [torchvision_backbone_and_num_features] *)

Definition not_supported_by_torchvision (model_name : string) : string :=
  model_name +:+ " is not supported by torchvision".

Definition torchvision_backbone_and_num_features (w : World)
    (model_name : string) (pretrained : Obj) : M Resolved :=
  match torchvision_models w model_name with
  | None =>
      raise (MisconfigurationException (not_supported_by_torchvision model_name))
  | Some model =>
      if decide (model_name ∈ MOBILENET_MODELS ++ VGG_MODELS) then
        model <- construct model_name model pretrained ;;
        backbone <- getattr model "features" ;;
        classifier <- getattr model "classifier" ;;
        head <- getitem_last classifier ;;
        num_features <- getattr head "in_features" ;;
        ret (backbone, num_features)
      else if decide (model_name ∈ RESNET_MODELS) then
        model <- construct model_name model pretrained ;;
        layers <- children model ;;
        backbone <- nn_Sequential (all_but_last_two layers) ;;
        fc <- getattr model "fc" ;;
        num_features <- getattr fc "in_features" ;;
        ret (backbone, num_features)
      else if decide (model_name ∈ DENSENET_MODELS) then
        model <- construct model_name model pretrained ;;
        features <- getattr model "features" ;;
        layers <- items features ;;
        backbone <- nn_Sequential (layers ++ [ReLU_inplace]) ;;
        classifier <- getattr model "classifier" ;;
        num_features <- getattr classifier "in_features" ;;
        ret (backbone, num_features)
      else raise (ValueError (not_supported_yet model_name))
  end.

(** ** [backbone_and_num_features] *)

(** A call expression as the interpreter evaluates it: the callee and
    the actual positional and keyword arguments that follow the model
    name. *)
Inductive Callee : Type := Bolts | Torchvision.

Record Call : Type := {
  callee : Callee;
  call_model_name : string;
  call_args : list Obj;
  call_kwargs : gmap string Obj;
}.

Section Dispatch.
Variables bolts_table torchvision_table : list string.

(** The body of [backbone_and_num_features] up to the call it makes,
    for arbitrary contents of the two tables. *)
Definition select_call (model_name : string)
    (args : list Obj) (kwargs : gmap string Obj) : Exn + Call :=
  if decide (model_name ∈ bolts_table) then
    inr {| callee := Bolts; call_model_name := model_name;
           call_args := []; call_kwargs := ∅ |}
  else if decide (model_name ∈ torchvision_table) then
    inr {| callee := Torchvision; call_model_name := model_name;
           call_args := args; call_kwargs := kwargs |}
  else inl (ValueError (not_supported_yet model_name)).
End Dispatch.

(** Binding of the arguments after [model_name] to the parameter list
    of [bolts_backbone_and_num_features], which has no further
    parameter. *)
Definition bind_no_parameter (args : list Obj) (kwargs : gmap string Obj)
    : M unit :=
  match args with
  | [] => if decide (dom kwargs ⊆ (∅ : gset string)) then ret tt else raise TypeError
  | _ => raise TypeError
  end.

(** Binding of the arguments after [model_name] to the parameter
    [pretrained: bool = True] of [torchvision_backbone_and_num_features]. *)
Definition bind_pretrained (args : list Obj) (kwargs : gmap string Obj)
    : M Obj :=
  if decide (dom kwargs ⊆ ({["pretrained"]} : gset string)) then
    match args, kwargs !! "pretrained" with
    | [], None => ret (PyBool true)
    | [], Some v => ret v
    | [v], None => ret v
    | _, _ => raise TypeError
    end
  else raise TypeError.

(** Python's call protocol applied to a [Call]. *)
Definition invoke (w : World) (c : Call) : M Resolved :=
  match callee c with
  | Bolts =>
      _ <- bind_no_parameter (call_args c) (call_kwargs c) ;;
      bolts_backbone_and_num_features w (call_model_name c)
  | Torchvision =>
      pretrained <- bind_pretrained (call_args c) (call_kwargs c) ;;
      torchvision_backbone_and_num_features w (call_model_name c) pretrained
  end.

Definition dispatch : string → list Obj → gmap string Obj → Exn + Call :=
  select_call BOLTS_MODELS TORCHVISION_MODELS.

Definition backbone_and_num_features (w : World) (model_name : string)
    (args : list Obj) (kwargs : gmap string Obj) : M Resolved :=
  match dispatch model_name args kwargs with
  | inr c => invoke w c
  | inl e => raise e
  end.

(** ** A miniature model zoo

    A world for running the resolvers on concrete inputs.  Each network
    has the top-level layout of the architecture it is named after (the
    layers below the first level are left out); both libraries are
    installed and every load succeeds. *)
Module Zoo.

Definition Layer (cls : string) : Obj := PyModule cls false [].

Definition Linear (in_features out_features : Z) : Obj :=
  PyModule "Linear" false [("in_features", PyInt in_features);
                     ("out_features", PyInt out_features)].

Definition Seq (named : list (string * Obj)) : Obj :=
  PyModule "Sequential" true named.

Definition resnet (fc_in : Z) : Obj :=
  PyModule "ResNet" false
    [("conv1", Layer "Conv2d"); ("bn1", Layer "BatchNorm2d");
     ("relu", Layer "ReLU"); ("maxpool", Layer "MaxPool2d");
     ("layer1", Seq []); ("layer2", Seq []);
     ("layer3", Seq []); ("layer4", Seq []);
     ("avgpool", Layer "AdaptiveAvgPool2d"); ("fc", Linear fc_in 1000)].

Definition mobilenet_v2 : Obj :=
  PyModule "MobileNetV2" false
    [("features", Seq [("0", Layer "ConvBNReLU"); ("1", Layer "InvertedResidual");
                       ("18", Layer "ConvBNReLU")]);
     ("classifier", Seq [("0", Layer "Dropout"); ("1", Linear 1280 1000)])].

Definition vgg : Obj :=
  PyModule "VGG" false
    [("features", Seq [("0", Layer "Conv2d"); ("1", Layer "ReLU");
                       ("2", Layer "MaxPool2d")]);
     ("avgpool", Layer "AdaptiveAvgPool2d");
     ("classifier", Seq [("0", Linear 25088 4096); ("1", Layer "ReLU");
                         ("2", Layer "Dropout"); ("3", Linear 4096 4096);
                         ("4", Layer "ReLU"); ("5", Layer "Dropout");
                         ("6", Linear 4096 1000)])].

Definition densenet (width : Z) : Obj :=
  PyModule "DenseNet" false
    [("features", Seq [("conv0", Layer "Conv2d"); ("norm0", Layer "BatchNorm2d");
                       ("relu0", Layer "ReLU"); ("pool0", Layer "MaxPool2d");
                       ("denseblock1", Layer "_DenseBlock");
                       ("norm5", Layer "BatchNorm2d")]);
     ("classifier", Linear width 1000)].

Definition alexnet : Obj :=
  PyModule "AlexNet" false
    [("features", Seq [("0", Layer "Conv2d")]);
     ("avgpool", Layer "AdaptiveAvgPool2d");
     ("classifier", Seq [("0", Layer "Dropout"); ("1", Linear 9216 4096)])].

Definition registry : gmap string Obj :=
  list_to_map
    [("mobilenet_v2", mobilenet_v2);
     ("vgg11", vgg); ("vgg13", vgg); ("vgg16", vgg); ("vgg19", vgg);
     ("resnet18", resnet 512); ("resnet34", resnet 512);
     ("resnet50", resnet 2048); ("resnet101", resnet 2048);
     ("resnet152", resnet 2048); ("resnext50_32x4d", resnet 2048);
     ("resnext101_32x8d", resnet 2048);
     ("densenet121", densenet 1024); ("densenet169", densenet 1664);
     ("densenet161", densenet 2208);
     ("alexnet", alexnet)].

Definition simclr : Obj :=
  PyModule "SimCLR" false [("encoder", resnet 2048); ("projection", Layer "Projection")].

Definition swav : Obj :=
  PyModule "SwAV" false [("model", resnet 2048)].

Definition world (bolts : bool) : World :=
  {| _BOLTS_AVAILABLE := bolts;
     torchvision_models := λ name,
       (λ net (_ : Obj), inr net) <$> registry !! name;
     SimCLR_load_from_checkpoint := λ _ _, inr simclr;
     SwAV_load_from_checkpoint := λ _ _, inr swav |}.

End Zoo.

(** ** Vocabulary of the properties *)

(** [msg] contains [name] as a contiguous substring. *)
Definition mentions (msg name : string) : Prop :=
  ∃ pre post, msg = pre +:+ name +:+ post.

(** The reading of "the construction arguments reach the resolver
    unchanged and complete": the call made carries exactly the
    positional and keyword arguments the entry point received. *)
Definition forwards_verbatim (name : string) (args : list Obj)
    (kwargs : gmap string Obj) : Prop :=
  ∀ c, dispatch name args kwargs = inr c →
       call_args c = args ∧ call_kwargs c = kwargs.

(** The reading of "fails with an unsupported-model error". *)
Definition fails_unsupported {A} (m : M A) : Prop :=
  ∃ msg, outcome m = inl (ValueError msg).

(** [m] does not end in a [ValueError]. *)
Definition no_ValueError {A} (m : M A) : Prop :=
  ∀ msg, outcome m ≠ inl (ValueError msg).

(** The two exceptions the module raises by itself. *)
Definition is_diagnostic (e : Exn) : Prop :=
  match e with
  | ValueError _ | MisconfigurationException _ => True
  | _ => False
  end.

(** [m] does not end in one of the module's own exceptions. *)
Definition no_diagnostic {A} (m : M A) : Prop :=
  ∀ e, outcome m = inl e → ¬ is_diagnostic e.

(** [m] makes no external call. *)
Definition silent {A} (m : M A) : Prop := trace m = [].

(** The one checkpoint load a recognized self-supervised name stands
    for. *)
Definition simclr_load_event : Event :=
  EvLoadCheckpoint "SimCLR" simclr_imagenet_url false.

Definition swav_load_event : Event :=
  EvLoadCheckpoint "SwAV" swav_imagenet_url true.

(** * Properties *)

(** ** Laws of the effect monad *)

Lemma bind_ret {A B} (a : A) (f : A → M B) : (x <- ret a ;; f x) = f a.
Proof. unfold bind, ret. by destruct (f a). Qed.

Lemma bind_raise {A B} (e : Exn) (f : A → M B) :
  (x <- raise e ;; f x) = raise e.
Proof. reflexivity. Qed.

Lemma bind_external {A B} (ev : Event) (a : A) (f : A → M B) :
  (x <- ([ev], inr a) ;; f x) = (ev :: trace (f a), outcome (f a)).
Proof. unfold bind, trace, outcome. by destruct (f a). Qed.

Lemma bind_external_fail {A B} (ev : Event) (e : Exn) (f : A → M B) :
  (x <- ([ev], inl e) ;; f x) = ([ev], inl e).
Proof. reflexivity. Qed.

(** ** Messages *)

Lemma not_supported_yet_mentions name : mentions (not_supported_yet name) name.
Proof. by exists "", " is not supported yet.". Qed.

Lemma not_supported_by_torchvision_mentions name :
  mentions (not_supported_by_torchvision name) name.
Proof. by exists "", " is not supported by torchvision". Qed.

(** ** The tables *)

Lemma torchvision_families name :
  name ∈ TORCHVISION_MODELS ↔
  name ∈ MOBILENET_MODELS ++ VGG_MODELS ∨ name ∈ RESNET_MODELS
  ∨ name ∈ DENSENET_MODELS.
Proof. unfold TORCHVISION_MODELS. rewrite !elem_of_app. tauto. Qed.

Lemma tables_disjoint name :
  name ∈ TORCHVISION_MODELS → name ∉ BOLTS_MODELS.
Proof.
  assert (H : Forall (λ n, n ∉ BOLTS_MODELS) TORCHVISION_MODELS)
    by (apply (bool_decide_unpack _); vm_compute; exact I).
  rewrite Forall_forall in H. apply H.
Qed.

Lemma resnet_not_mobilenet_vgg name :
  name ∈ RESNET_MODELS → name ∉ MOBILENET_MODELS ++ VGG_MODELS.
Proof.
  assert (H : Forall (λ n, n ∉ MOBILENET_MODELS ++ VGG_MODELS) RESNET_MODELS)
    by (apply (bool_decide_unpack _); vm_compute; exact I).
  rewrite Forall_forall in H. apply H.
Qed.

Lemma models_lookup_other w name :
  name ∉ BOLTS_MODELS → models w !! name = None.
Proof.
  unfold BOLTS_MODELS, models. rewrite !not_elem_of_cons. intros (H1 & H2 & _).
  rewrite lookup_insert_ne by done. by rewrite lookup_singleton_ne.
Qed.

Lemma models_lookup_simclr w :
  models w !! "simclr-imagenet"
  = Some (λ _ : unit, load_simclr_imagenet w simclr_imagenet_url).
Proof. unfold models. by rewrite lookup_insert_eq. Qed.

Lemma models_lookup_swav w :
  models w !! "swav-imagenet"
  = Some (λ _ : unit, load_swav_imagenet w swav_imagenet_url).
Proof.
  unfold models. rewrite lookup_insert_ne by done.
  by rewrite lookup_singleton_eq.
Qed.

(** ** The call made by [backbone_and_num_features] *)

Lemma dispatch_bolts name args kwargs :
  name ∈ BOLTS_MODELS →
  dispatch name args kwargs
  = inr {| callee := Bolts; call_model_name := name;
           call_args := []; call_kwargs := ∅ |}.
Proof. intros H. unfold dispatch, select_call. by rewrite decide_True. Qed.

Lemma dispatch_torchvision name args kwargs :
  name ∈ TORCHVISION_MODELS →
  dispatch name args kwargs
  = inr {| callee := Torchvision; call_model_name := name;
           call_args := args; call_kwargs := kwargs |}.
Proof.
  intros H. unfold dispatch, select_call.
  rewrite decide_False by by apply tables_disjoint.
  by rewrite decide_True.
Qed.

Lemma dispatch_neither name args kwargs :
  name ∉ BOLTS_MODELS → name ∉ TORCHVISION_MODELS →
  dispatch name args kwargs = inl (ValueError (not_supported_yet name)).
Proof.
  intros H1 H2. unfold dispatch, select_call.
  rewrite decide_False by done. by rewrite decide_False.
Qed.

Lemma backbone_bolts_path w name args kwargs :
  name ∈ BOLTS_MODELS →
  backbone_and_num_features w name args kwargs
  = bolts_backbone_and_num_features w name.
Proof.
  intros H. unfold backbone_and_num_features.
  rewrite dispatch_bolts by done. unfold invoke; simpl.
  unfold bind_no_parameter. rewrite decide_True by set_solver.
  by rewrite bind_ret.
Qed.

Lemma backbone_torchvision_path w name args kwargs :
  name ∈ TORCHVISION_MODELS →
  backbone_and_num_features w name args kwargs
  = (pretrained <- bind_pretrained args kwargs ;;
     torchvision_backbone_and_num_features w name pretrained).
Proof.
  intros H. unfold backbone_and_num_features.
  by rewrite dispatch_torchvision.
Qed.

Lemma backbone_neither w name args kwargs :
  name ∉ BOLTS_MODELS → name ∉ TORCHVISION_MODELS →
  backbone_and_num_features w name args kwargs
  = raise (ValueError (not_supported_yet name)).
Proof.
  intros H1 H2. unfold backbone_and_num_features.
  by rewrite dispatch_neither.
Qed.

(** The entry point in the shape of its source text. *)
Lemma backbone_and_num_features_body w model_name args kwargs :
  backbone_and_num_features w model_name args kwargs
  = if decide (model_name ∈ BOLTS_MODELS) then
      bolts_backbone_and_num_features w model_name
    else if decide (model_name ∈ TORCHVISION_MODELS) then
      (pretrained <- bind_pretrained args kwargs ;;
       torchvision_backbone_and_num_features w model_name pretrained)
    else raise (ValueError (not_supported_yet model_name)).
Proof.
  case_decide; [by apply backbone_bolts_path|].
  case_decide; [by apply backbone_torchvision_path | by apply backbone_neither].
Qed.

(** ** Order of the table checks *)

(** C1.  [backbone_and_num_features] tests the self-supervised table
    before the torchvision table: whatever the two tables hold, a name
    found in the first is sent to the bolts resolver, also when the
    second holds it too; a name found only in the second is sent to the
    torchvision resolver; a name in neither is sent nowhere, the call
    ends in the [ValueError] with an empty trace.  The function itself
    is this selection on the module's two tables. *)
Theorem bolts_table_checked_first
    (bolts_table torchvision_table : list string)
    (w : World) (name : string) (args : list Obj) (kwargs : gmap string Obj) :
  (name ∈ bolts_table →
     ∃ c, select_call bolts_table torchvision_table name args kwargs = inr c
          ∧ callee c = Bolts ∧ call_model_name c = name)
  ∧ (name ∉ bolts_table → name ∈ torchvision_table →
     ∃ c, select_call bolts_table torchvision_table name args kwargs = inr c
          ∧ callee c = Torchvision ∧ call_model_name c = name)
  ∧ (name ∉ bolts_table → name ∉ torchvision_table →
     select_call bolts_table torchvision_table name args kwargs
     = inl (ValueError (not_supported_yet name)))
  ∧ (name ∈ BOLTS_MODELS →
     backbone_and_num_features w name args kwargs
     = bolts_backbone_and_num_features w name)
  ∧ (name ∉ BOLTS_MODELS → name ∉ TORCHVISION_MODELS →
     backbone_and_num_features w name args kwargs
     = ([], inl (ValueError (not_supported_yet name)))).
Proof.
  unfold select_call. repeat split.
  - intros Hb. rewrite decide_True by done. eauto.
  - intros Hb Ht. rewrite decide_False by done.
    rewrite decide_True by done. eauto.
  - intros Hb Ht. by rewrite !decide_False.
  - apply backbone_bolts_path.
  - apply backbone_neither.
Qed.

(** A name held by both tables goes to the bolts resolver. *)
Lemma bolts_table_checked_first_witness :
  ∃ c, select_call ["resnet18"; "simclr-imagenet"] ["vgg11"; "resnet18"]
         "resnet18" [PyBool false] ∅ = inr c
       ∧ callee c = Bolts ∧ call_model_name c = "resnet18".
Proof.
  apply (bolts_table_checked_first
           ["resnet18"; "simclr-imagenet"] ["vgg11"; "resnet18"]
           (Zoo.world true) "resnet18" [PyBool false] ∅).
  apply (bool_decide_unpack _). vm_compute. exact I.
Defined.

(** ** Names in neither table *)

(** C2.  For a name in neither table, [backbone_and_num_features]
    raises [ValueError] with the message
    "<name> is not supported yet.", which contains the name; no
    external call is made. *)
Theorem unknown_name_unsupported
    (w : World) (name : string) (args : list Obj) (kwargs : gmap string Obj) :
  name ∉ BOLTS_MODELS → name ∉ TORCHVISION_MODELS →
  ∃ msg,
    backbone_and_num_features w name args kwargs = ([], inl (ValueError msg))
    ∧ msg = name +:+ " is not supported yet."
    ∧ mentions msg name.
Proof.
  intros Hb Ht. exists (not_supported_yet name). split; [|split].
  - by apply backbone_neither.
  - reflexivity.
  - apply not_supported_yet_mentions.
Qed.

Lemma unknown_name_unsupported_witness :
  ∃ msg,
    backbone_and_num_features (Zoo.world true) "not-a-model" [] ∅
    = ([], inl (ValueError msg))
    ∧ msg = "not-a-model is not supported yet."
    ∧ mentions msg "not-a-model".
Proof.
  apply (unknown_name_unsupported (Zoo.world true) "not-a-model" [] ∅);
    apply (bool_decide_unpack _); vm_compute; exact I.
Defined.

(** ** The availability guard *)

Lemma bolts_unavailable w name :
  _BOLTS_AVAILABLE w = false →
  bolts_backbone_and_num_features w name
  = ([], inl (MisconfigurationException bolts_not_installed)).
Proof. intros H. unfold bolts_backbone_and_num_features. by rewrite H. Qed.

(** C4.  Without the bolts library, [bolts_backbone_and_num_features]
    raises [MisconfigurationException] for either recognized name; the
    message tells how to install the library, and the trace is empty:
    no checkpoint load was attempted. *)
Theorem bolts_missing_is_misconfiguration (w : World) (name : string) :
  _BOLTS_AVAILABLE w = false →
  name ∈ BOLTS_MODELS →
  ∃ msg,
    bolts_backbone_and_num_features w name
    = ([], inl (MisconfigurationException msg))
    ∧ mentions msg "pip install lightning-bolts".
Proof.
  intros H _. exists bolts_not_installed. split.
  - by apply bolts_unavailable.
  - by exists "Bolts isn't installed. Please, use ``", "``.".
Qed.

Lemma bolts_missing_is_misconfiguration_witness :
  ∃ msg,
    bolts_backbone_and_num_features (Zoo.world false) "swav-imagenet"
    = ([], inl (MisconfigurationException msg))
    ∧ mentions msg "pip install lightning-bolts".
Proof.
  apply (bolts_missing_is_misconfiguration (Zoo.world false) "swav-imagenet").
  - reflexivity.
  - apply (bool_decide_unpack _). vm_compute. exact I.
Defined.

(** ** The registry probe *)

(** C9.  When the torchvision registry has no attribute of the given
    name, [torchvision_backbone_and_num_features] raises
    [MisconfigurationException] with the message
    "<name> is not supported by torchvision"; the trace is empty: no
    network was constructed. *)
Theorem registry_miss_is_misconfiguration
    (w : World) (name : string) (pretrained : Obj) :
  torchvision_models w name = None →
  ∃ msg,
    torchvision_backbone_and_num_features w name pretrained
    = ([], inl (MisconfigurationException msg))
    ∧ msg = name +:+ " is not supported by torchvision"
    ∧ mentions msg name.
Proof.
  intros H. exists (not_supported_by_torchvision name). split; [|split].
  - unfold torchvision_backbone_and_num_features. by rewrite H.
  - reflexivity.
  - apply not_supported_by_torchvision_mentions.
Qed.

Lemma registry_miss_is_misconfiguration_witness :
  ∃ msg,
    torchvision_backbone_and_num_features (Zoo.world true) "inception_v9"
      (PyBool true)
    = ([], inl (MisconfigurationException msg))
    ∧ msg = "inception_v9 is not supported by torchvision"
    ∧ mentions msg "inception_v9".
Proof.
  apply (registry_miss_is_misconfiguration (Zoo.world true) "inception_v9").
  vm_compute. reflexivity.
Defined.

(** ** Building the sequential feature extractor *)

Lemma child_modules_modules ms : forallb is_module (child_modules ms) = true.
Proof.
  apply forallb_forall. intros o Ho. apply list_elem_of_In in Ho.
  unfold child_modules in Ho. by apply list_elem_of_filter in Ho as [Ho _].
Qed.

Lemma all_but_last_two_modules mods :
  forallb is_module mods = true →
  forallb is_module (all_but_last_two mods) = true.
Proof.
  rewrite !forallb_forall. intros H o Ho. apply H.
  apply list_elem_of_In. apply list_elem_of_In in Ho.
  unfold all_but_last_two in Ho. by eapply subseteq_take.
Qed.

Lemma nn_Sequential_modules mods :
  forallb is_module mods = true → nn_Sequential mods = ret (Sequential mods).
Proof. intros H. unfold nn_Sequential. by rewrite H. Qed.

Lemma children_modules o layers :
  children o = ret layers → forallb is_module layers = true.
Proof.
  destruct o; try discriminate. unfold ret. intros [= <-].
  apply child_modules_modules.
Qed.

Lemma imap_named_values (g : nat → string) (mods : list Obj) :
  (imap (λ i m, (g i, m)) mods).*2 = mods.
Proof.
  revert g. induction mods as [|m mods IH]; intros g; [done|].
  simpl. f_equal. apply (IH (g ∘ S)).
Qed.

Lemma filter_modules (mods : list Obj) :
  forallb is_module mods = true →
  filter (λ o, is_module o = true) mods = mods.
Proof.
  induction mods as [|m mods IH]; [done|]. simpl.
  intros [Hm Hrest]%andb_prop.
  rewrite filter_cons_True by done. by rewrite IH.
Qed.

Lemma children_Sequential mods :
  forallb is_module mods = true → children (Sequential mods) = ret mods.
Proof.
  intros H. unfold Sequential, children, child_modules.
  by rewrite imap_named_values, filter_modules.
Qed.

Lemma truncated_Sequential o layers :
  children o = ret layers →
  nn_Sequential (all_but_last_two layers)
  = ret (Sequential (all_but_last_two layers)).
Proof.
  intros H. apply nn_Sequential_modules, all_but_last_two_modules.
  by eapply children_modules.
Qed.

Lemma load_from_checkpoint_ok cls loader url strict o :
  loader url strict = inr o →
  load_from_checkpoint cls loader url strict
  = ([EvLoadCheckpoint cls url strict], inr o).
Proof. intros H. unfold load_from_checkpoint. by rewrite H. Qed.

Lemma construct_ok name model pretrained net :
  model pretrained = inr net →
  construct name model pretrained = ([EvConstruct name pretrained], inr net).
Proof. intros H. unfold construct. by rewrite H. Qed.

(** ** Reading a successful outcome backwards *)

Lemma bind_outcome_inr {A B} (m : M A) (f : A → M B) (b : B) :
  outcome (x <- m ;; f x) = inr b →
  ∃ a, outcome m = inr a ∧ outcome (f a) = inr b.
Proof.
  destruct m as [t [e|a]]; [discriminate|].
  unfold bind, outcome; simpl. destruct (f a) as [t' r] eqn:E; simpl.
  intros ->. exists a. by rewrite E.
Qed.

Lemma load_simclr_width w url backbone width :
  outcome (load_simclr_imagenet w url) = inr (backbone, width) →
  width = PyInt 2048.
Proof.
  unfold load_simclr_imagenet. intros H.
  apply bind_outcome_inr in H as (? & _ & H).
  apply bind_outcome_inr in H as (? & _ & H).
  apply bind_outcome_inr in H as (? & _ & H).
  apply bind_outcome_inr in H as (? & _ & H).
  by injection H.
Qed.

Lemma load_swav_width w url backbone width :
  outcome (load_swav_imagenet w url) = inr (backbone, width) →
  width = PyInt 3000.
Proof.
  unfold load_swav_imagenet. intros H.
  apply bind_outcome_inr in H as (? & _ & H).
  apply bind_outcome_inr in H as (? & _ & H).
  apply bind_outcome_inr in H as (? & _ & H).
  apply bind_outcome_inr in H as (? & _ & H).
  by injection H.
Qed.

(** ** The self-supervised widths *)

(** C3.  With the bolts library present and the checkpoint loaded,
    ["simclr-imagenet"] resolves to the width 2048 and
    ["swav-imagenet"] to the width 3000, beside the sequential module
    built from all but the last two children of the loaded encoder.
    The width is the same for every loaded network: it is a constant
    of the loader, no attribute of the network is read for it.  The
    entry point [backbone_and_num_features] returns what the bolts
    resolver returns, and no call with either name can succeed with
    another width. *)
Theorem bolts_widths_are_constants (w : World) :
  (_BOLTS_AVAILABLE w = true →
   ∀ simclr encoder layers,
     SimCLR_load_from_checkpoint w simclr_imagenet_url false = inr simclr →
     getattr simclr "encoder" = ret encoder →
     children encoder = ret layers →
     bolts_backbone_and_num_features w "simclr-imagenet"
     = ([EvLoadCheckpoint "SimCLR" simclr_imagenet_url false],
        inr (Sequential (all_but_last_two layers), PyInt 2048)))
  ∧ (_BOLTS_AVAILABLE w = true →
     ∀ swav model layers,
       SwAV_load_from_checkpoint w swav_imagenet_url true = inr swav →
       getattr swav "model" = ret model →
       children model = ret layers →
       bolts_backbone_and_num_features w "swav-imagenet"
       = ([EvLoadCheckpoint "SwAV" swav_imagenet_url true],
          inr (Sequential (all_but_last_two layers), PyInt 3000)))
  ∧ (∀ args kwargs,
       backbone_and_num_features w "simclr-imagenet" args kwargs
       = bolts_backbone_and_num_features w "simclr-imagenet"
       ∧ backbone_and_num_features w "swav-imagenet" args kwargs
         = bolts_backbone_and_num_features w "swav-imagenet")
  ∧ (∀ backbone width,
       outcome (bolts_backbone_and_num_features w "simclr-imagenet")
       = inr (backbone, width) → width = PyInt 2048)
  ∧ (∀ backbone width,
       outcome (bolts_backbone_and_num_features w "swav-imagenet")
       = inr (backbone, width) → width = PyInt 3000).
Proof.
  repeat split.
  - intros Hav simclr encoder layers Hload Henc Hch.
    unfold bolts_backbone_and_num_features. rewrite Hav; simpl.
    rewrite models_lookup_simclr.
    unfold load_simclr_imagenet.
    rewrite (load_from_checkpoint_ok _ _ _ _ _ Hload).
    rewrite bind_external, Henc, bind_ret, Hch, bind_ret.
    by rewrite (truncated_Sequential encoder), bind_ret.
  - intros Hav swav model layers Hload Hmod Hch.
    unfold bolts_backbone_and_num_features. rewrite Hav; simpl.
    rewrite models_lookup_swav.
    unfold load_swav_imagenet.
    rewrite (load_from_checkpoint_ok _ _ _ _ _ Hload).
    rewrite bind_external, Hmod, bind_ret, Hch, bind_ret.
    by rewrite (truncated_Sequential model), bind_ret.
  - apply backbone_bolts_path. set_solver.
  - apply backbone_bolts_path. set_solver.
  - intros backbone width. unfold bolts_backbone_and_num_features.
    destruct (_BOLTS_AVAILABLE w); [|discriminate]; simpl.
    rewrite models_lookup_simclr. apply load_simclr_width.
  - intros backbone width. unfold bolts_backbone_and_num_features.
    destruct (_BOLTS_AVAILABLE w); [|discriminate]; simpl.
    rewrite models_lookup_swav. apply load_swav_width.
Qed.

Lemma bolts_widths_are_constants_witness :
  (∃ backbone,
     bolts_backbone_and_num_features (Zoo.world true) "simclr-imagenet"
     = ([EvLoadCheckpoint "SimCLR" simclr_imagenet_url false],
        inr (backbone, PyInt 2048)))
  ∧ (∃ backbone,
       bolts_backbone_and_num_features (Zoo.world true) "swav-imagenet"
       = ([EvLoadCheckpoint "SwAV" swav_imagenet_url true],
          inr (backbone, PyInt 3000))).
Proof.
  split; eexists.
  - eapply (proj1 (bolts_widths_are_constants (Zoo.world true)));
      reflexivity.
  - eapply (proj1 (proj2 (bolts_widths_are_constants (Zoo.world true))));
      reflexivity.
Defined.

(** ** Construction arguments *)

(** On the self-supervised path the positional argument is dropped. *)
Lemma bolts_call_drops_arguments :
  ¬ forwards_verbatim "simclr-imagenet" [PyBool false] ∅.
Proof.
  intros H.
  destruct (H {| callee := Bolts; call_model_name := "simclr-imagenet";
                 call_args := []; call_kwargs := ∅ |}) as [Hargs _].
  - apply dispatch_bolts. set_solver.
  - discriminate Hargs.
Qed.

(** C5, amended.  For a name of the torchvision table the call to
    [torchvision_backbone_and_num_features] carries the positional and
    keyword arguments of the entry point unchanged, and the result is
    that resolver's result once Python has bound them to [pretrained].
    For a name of the bolts table the call to
    [bolts_backbone_and_num_features] carries the model name alone, and
    the result does not depend on the construction arguments. *)
Theorem construction_arguments_forwarding
    (w : World) (name : string) (args : list Obj) (kwargs : gmap string Obj) :
  (name ∈ TORCHVISION_MODELS →
     dispatch name args kwargs
     = inr {| callee := Torchvision; call_model_name := name;
              call_args := args; call_kwargs := kwargs |}
     ∧ forwards_verbatim name args kwargs
     ∧ backbone_and_num_features w name args kwargs
       = (pretrained <- bind_pretrained args kwargs ;;
          torchvision_backbone_and_num_features w name pretrained))
  ∧ (name ∈ BOLTS_MODELS →
     dispatch name args kwargs
     = inr {| callee := Bolts; call_model_name := name;
              call_args := []; call_kwargs := ∅ |}
     ∧ backbone_and_num_features w name args kwargs
       = bolts_backbone_and_num_features w name).
Proof.
  split.
  - intros H. split; [|split].
    + by apply dispatch_torchvision.
    + intros c. rewrite dispatch_torchvision by done. by intros [= <-].
    + by apply backbone_torchvision_path.
  - intros H. split.
    + by apply dispatch_bolts.
    + by apply backbone_bolts_path.
Qed.

Lemma construction_arguments_forwarding_witness :
  dispatch "vgg16" [] {[ "pretrained" := PyBool false ]}
  = inr {| callee := Torchvision; call_model_name := "vgg16";
           call_args := []; call_kwargs := {[ "pretrained" := PyBool false ]} |}
  ∧ forwards_verbatim "vgg16" [] {[ "pretrained" := PyBool false ]}
  ∧ backbone_and_num_features (Zoo.world true) "vgg16" []
      {[ "pretrained" := PyBool false ]}
    = (pretrained <- bind_pretrained [] {[ "pretrained" := PyBool false ]} ;;
       torchvision_backbone_and_num_features (Zoo.world true) "vgg16"
         pretrained).
Proof.
  apply (construction_arguments_forwarding (Zoo.world true) "vgg16" []
           {[ "pretrained" := PyBool false ]}).
  apply (bool_decide_unpack _). vm_compute. exact I.
Defined.

(** ** Names the bolts resolver does not know *)

(** Without the bolts library a name outside the two recognized ones
    meets the availability guard first. *)
Lemma unknown_bolts_name_without_bolts :
  ("resnet18" ∉ BOLTS_MODELS)
  ∧ ¬ fails_unsupported
        (bolts_backbone_and_num_features (Zoo.world false) "resnet18")
  ∧ outcome (bolts_backbone_and_num_features (Zoo.world false) "resnet18")
    = inl (MisconfigurationException bolts_not_installed).
Proof.
  split; [|split].
  - apply (bool_decide_unpack _). vm_compute. exact I.
  - intros [msg H]. discriminate H.
  - reflexivity.
Qed.

(** C6, amended.  With the bolts library present, every name outside
    the two recognized ones makes [bolts_backbone_and_num_features]
    raise [ValueError] with the message "<name> is not supported yet.",
    and nothing is loaded.  With the library absent the availability
    guard comes first: whatever the name, the call ends in the
    [MisconfigurationException] of the guard, not in a [ValueError],
    and nothing is loaded. *)
Theorem unknown_bolts_name_unsupported (w : World) (name : string) :
  (_BOLTS_AVAILABLE w = true →
   name ≠ "simclr-imagenet" → name ≠ "swav-imagenet" →
   bolts_backbone_and_num_features w name
   = ([], inl (ValueError (not_supported_yet name)))
   ∧ fails_unsupported (bolts_backbone_and_num_features w name))
  ∧ (_BOLTS_AVAILABLE w = false →
     bolts_backbone_and_num_features w name
     = ([], inl (MisconfigurationException bolts_not_installed))
     ∧ ¬ fails_unsupported (bolts_backbone_and_num_features w name)).
Proof.
  split.
  - intros Hav H1 H2.
    assert (E : bolts_backbone_and_num_features w name
                = ([], inl (ValueError (not_supported_yet name)))).
    { unfold bolts_backbone_and_num_features. rewrite Hav; simpl.
      rewrite models_lookup_other; [done|].
      unfold BOLTS_MODELS. rewrite !not_elem_of_cons. split_and!; try done.
      apply not_elem_of_nil. }
    split; [done|]. exists (not_supported_yet name). by rewrite E.
  - intros Hav.
    assert (E : bolts_backbone_and_num_features w name
                = ([], inl (MisconfigurationException bolts_not_installed))).
    { unfold bolts_backbone_and_num_features. by rewrite Hav. }
    split; [done|]. intros [msg H]. rewrite E in H. discriminate H.
Qed.

Lemma unknown_bolts_name_unsupported_witness :
  (bolts_backbone_and_num_features (Zoo.world true) "resnet18"
   = ([], inl (ValueError (not_supported_yet "resnet18")))
   ∧ fails_unsupported
       (bolts_backbone_and_num_features (Zoo.world true) "resnet18"))
  ∧ (bolts_backbone_and_num_features (Zoo.world false) "densenet121"
     = ([], inl (MisconfigurationException bolts_not_installed))
     ∧ ¬ fails_unsupported
           (bolts_backbone_and_num_features (Zoo.world false) "densenet121")).
Proof.
  split.
  - apply (proj1 (unknown_bolts_name_unsupported (Zoo.world true) "resnet18")).
    + reflexivity.
    + discriminate.
    + discriminate.
  - apply (proj2 (unknown_bolts_name_unsupported (Zoo.world false)
                    "densenet121")).
    reflexivity.
Defined.

(** ** The torchvision families *)

(** C7.  For a name of the residual table whose constructor the
    registry holds and which builds a network, the feature extractor
    is the [nn.Sequential] module whose children are the network's
    direct children without the last two, in order and registered
    under their position, and the width is the [in_features] of the
    network's [fc] layer; the network is constructed once, with the
    [pretrained] argument. *)
Theorem resnet_backbone_and_width
    (w : World) (name : string) (pretrained : Obj)
    (model : Obj → string + Obj) (net : Obj) (layers : list Obj)
    (fc width : Obj) :
  name ∈ RESNET_MODELS →
  torchvision_models w name = Some model →
  model pretrained = inr net →
  children net = ret layers →
  getattr net "fc" = ret fc →
  getattr fc "in_features" = ret width →
  torchvision_backbone_and_num_features w name pretrained
  = ([EvConstruct name pretrained],
     inr (PyModule "Sequential" true
            (imap (λ i m, (pretty i, m)) (take (length layers - 2) layers)),
          width))
  ∧ children
      (PyModule "Sequential" true
         (imap (λ i m, (pretty i, m)) (take (length layers - 2) layers)))
    = ret (take (length layers - 2) layers).
Proof.
  intros Hname Hreg Hnet Hch Hfc Hwidth. split.
  - unfold torchvision_backbone_and_num_features. rewrite Hreg.
    rewrite decide_False by by apply resnet_not_mobilenet_vgg.
    rewrite decide_True by done.
    rewrite (construct_ok _ _ _ _ Hnet), bind_external.
    rewrite Hch, bind_ret, (truncated_Sequential net), bind_ret by done.
    by rewrite Hfc, bind_ret, Hwidth, bind_ret.
  - apply (children_Sequential (all_but_last_two layers)).
    apply all_but_last_two_modules. by eapply children_modules.
Qed.

Lemma resnet_backbone_and_width_witness :
  (torchvision_backbone_and_num_features (Zoo.world true) "resnet18"
     (PyBool true)
   = ([EvConstruct "resnet18" (PyBool true)],
      inr (PyModule "Sequential" true
             [("0", PyModule "Conv2d" false []);
              ("1", PyModule "BatchNorm2d" false []);
              ("2", PyModule "ReLU" false []);
              ("3", PyModule "MaxPool2d" false []);
              ("4", PyModule "Sequential" true []);
              ("5", PyModule "Sequential" true []);
              ("6", PyModule "Sequential" true []);
              ("7", PyModule "Sequential" true [])],
           PyInt 512))
   ∧ children
       (PyModule "Sequential" true
          [("0", PyModule "Conv2d" false []);
           ("1", PyModule "BatchNorm2d" false []);
           ("2", PyModule "ReLU" false []);
           ("3", PyModule "MaxPool2d" false []);
           ("4", PyModule "Sequential" true []);
           ("5", PyModule "Sequential" true []);
           ("6", PyModule "Sequential" true []);
           ("7", PyModule "Sequential" true [])])
     = ret [PyModule "Conv2d" false []; PyModule "BatchNorm2d" false [];
            PyModule "ReLU" false []; PyModule "MaxPool2d" false [];
            PyModule "Sequential" true []; PyModule "Sequential" true [];
            PyModule "Sequential" true []; PyModule "Sequential" true []])
  ∧ outcome (torchvision_backbone_and_num_features (Zoo.world true)
               "resnet50" (PyBool false))
    = inr (PyModule "Sequential" true
             [("0", PyModule "Conv2d" false []);
              ("1", PyModule "BatchNorm2d" false []);
              ("2", PyModule "ReLU" false []);
              ("3", PyModule "MaxPool2d" false []);
              ("4", PyModule "Sequential" true []);
              ("5", PyModule "Sequential" true []);
              ("6", PyModule "Sequential" true []);
              ("7", PyModule "Sequential" true [])],
           PyInt 2048).
Proof.
  split.
  - apply (resnet_backbone_and_width (Zoo.world true) "resnet18" (PyBool true)
             (λ _, inr (Zoo.resnet 512)) (Zoo.resnet 512)
             [Zoo.Layer "Conv2d"; Zoo.Layer "BatchNorm2d"; Zoo.Layer "ReLU";
              Zoo.Layer "MaxPool2d"; Zoo.Seq []; Zoo.Seq []; Zoo.Seq [];
              Zoo.Seq []; Zoo.Layer "AdaptiveAvgPool2d"; Zoo.Linear 512 1000]
             (Zoo.Linear 512 1000) (PyInt 512));
      [apply (bool_decide_unpack _); vm_compute; exact I | reflexivity ..].
  - rewrite (proj1 (resnet_backbone_and_width (Zoo.world true) "resnet50"
             (PyBool false)
             (λ _, inr (Zoo.resnet 2048)) (Zoo.resnet 2048)
             [Zoo.Layer "Conv2d"; Zoo.Layer "BatchNorm2d"; Zoo.Layer "ReLU";
              Zoo.Layer "MaxPool2d"; Zoo.Seq []; Zoo.Seq []; Zoo.Seq [];
              Zoo.Seq []; Zoo.Layer "AdaptiveAvgPool2d"; Zoo.Linear 2048 1000]
             (Zoo.Linear 2048 1000) (PyInt 2048)
             ltac:(apply (bool_decide_unpack _); vm_compute; exact I)
             eq_refl eq_refl eq_refl eq_refl eq_refl)).
    reflexivity.
Defined.

(** C8.  For a name of the mobile or of the VGG table whose
    constructor the registry holds and which builds a network, the
    feature extractor is the network's [features] attribute as it is,
    and the width is the [in_features] of the last layer of the
    network's [classifier]; the network is constructed once, with the
    [pretrained] argument. *)
Theorem mobilenet_vgg_backbone_and_width
    (w : World) (name : string) (pretrained : Obj)
    (model : Obj → string + Obj) (net features classifier : Obj)
    (head_layers : list Obj) (last_layer width : Obj) :
  name ∈ MOBILENET_MODELS ∨ name ∈ VGG_MODELS →
  torchvision_models w name = Some model →
  model pretrained = inr net →
  getattr net "features" = ret features →
  getattr net "classifier" = ret classifier →
  items classifier = ret head_layers →
  last head_layers = Some last_layer →
  getattr last_layer "in_features" = ret width →
  torchvision_backbone_and_num_features w name pretrained
  = ([EvConstruct name pretrained], inr (features, width)).
Proof.
  intros Hname Hreg Hnet Hfeat Hcls Hitems Hlast Hwidth.
  unfold torchvision_backbone_and_num_features. rewrite Hreg.
  rewrite decide_True by by apply elem_of_app.
  rewrite (construct_ok _ _ _ _ Hnet), bind_external.
  rewrite Hfeat, bind_ret, Hcls, bind_ret.
  unfold getitem_last. rewrite Hitems, bind_ret, Hlast, bind_ret.
  by rewrite Hwidth, bind_ret.
Qed.

Lemma mobilenet_vgg_backbone_and_width_witness :
  torchvision_backbone_and_num_features (Zoo.world true) "mobilenet_v2"
    (PyBool true)
  = ([EvConstruct "mobilenet_v2" (PyBool true)],
     inr (Zoo.Seq [("0", Zoo.Layer "ConvBNReLU");
                   ("1", Zoo.Layer "InvertedResidual");
                   ("18", Zoo.Layer "ConvBNReLU")],
          PyInt 1280))
  ∧ torchvision_backbone_and_num_features (Zoo.world true) "vgg16"
      (PyBool true)
    = ([EvConstruct "vgg16" (PyBool true)],
       inr (Zoo.Seq [("0", Zoo.Layer "Conv2d"); ("1", Zoo.Layer "ReLU");
                     ("2", Zoo.Layer "MaxPool2d")],
            PyInt 4096)).
Proof.
  split.
  - apply (mobilenet_vgg_backbone_and_width (Zoo.world true) "mobilenet_v2"
             (PyBool true) (λ _, inr Zoo.mobilenet_v2) Zoo.mobilenet_v2
             (Zoo.Seq [("0", Zoo.Layer "ConvBNReLU");
                       ("1", Zoo.Layer "InvertedResidual");
                       ("18", Zoo.Layer "ConvBNReLU")])
             (Zoo.Seq [("0", Zoo.Layer "Dropout"); ("1", Zoo.Linear 1280 1000)])
             [Zoo.Layer "Dropout"; Zoo.Linear 1280 1000]
             (Zoo.Linear 1280 1000) (PyInt 1280));
      [left; apply (bool_decide_unpack _); vm_compute; exact I
      | reflexivity ..].
  - apply (mobilenet_vgg_backbone_and_width (Zoo.world true) "vgg16"
             (PyBool true) (λ _, inr Zoo.vgg) Zoo.vgg
             (Zoo.Seq [("0", Zoo.Layer "Conv2d"); ("1", Zoo.Layer "ReLU");
                       ("2", Zoo.Layer "MaxPool2d")])
             (Zoo.Seq [("0", Zoo.Linear 25088 4096); ("1", Zoo.Layer "ReLU");
                       ("2", Zoo.Layer "Dropout"); ("3", Zoo.Linear 4096 4096);
                       ("4", Zoo.Layer "ReLU"); ("5", Zoo.Layer "Dropout");
                       ("6", Zoo.Linear 4096 1000)])
             [Zoo.Linear 25088 4096; Zoo.Layer "ReLU"; Zoo.Layer "Dropout";
              Zoo.Linear 4096 4096; Zoo.Layer "ReLU"; Zoo.Layer "Dropout";
              Zoo.Linear 4096 1000]
             (Zoo.Linear 4096 1000) (PyInt 4096));
      [right; apply (bool_decide_unpack _); vm_compute; exact I
      | reflexivity ..].
Defined.

(** ** Reach of the final [raise] *)

Create HintDb no_value_error.

Lemma no_ValueError_ret {A} (a : A) : no_ValueError (ret a).
Proof. by intros msg. Qed.

Lemma no_ValueError_bind {A B} (m : M A) (f : A → M B) :
  no_ValueError m → (∀ a, no_ValueError (f a)) →
  no_ValueError (x <- m ;; f x).
Proof.
  intros Hm Hf msg. destruct m as [t [e|a]].
  - specialize (Hm msg). unfold bind, outcome in *; simpl in *. congruence.
  - specialize (Hf a msg). unfold bind, outcome in *; simpl.
    by destruct (f a).
Qed.

Lemma no_ValueError_getattr o name : no_ValueError (getattr o name).
Proof.
  intros msg. destruct o as [| | | |cls container ms]; try done.
  simpl. by destruct (assoc name ms).
Qed.

Lemma no_ValueError_children o : no_ValueError (children o).
Proof. intros msg. by destruct o. Qed.

Lemma no_ValueError_items o : no_ValueError (items o).
Proof. intros msg. by destruct o as [| | | |cls [] ms]. Qed.

Lemma no_ValueError_getitem_last o : no_ValueError (getitem_last o).
Proof.
  apply no_ValueError_bind; [apply no_ValueError_items|].
  intros xs msg. by destruct (last xs).
Qed.

Lemma no_ValueError_nn_Sequential mods : no_ValueError (nn_Sequential mods).
Proof. intros msg. unfold nn_Sequential. by destruct (forallb is_module mods). Qed.

Lemma no_ValueError_construct name model pretrained :
  no_ValueError (construct name model pretrained).
Proof. intros msg. unfold construct, outcome; simpl. by destruct (model pretrained). Qed.

Lemma no_ValueError_bind_pretrained args kwargs :
  no_ValueError (bind_pretrained args kwargs).
Proof.
  intros msg. unfold bind_pretrained. case_decide; [|done].
  destruct args as [|v [|v' args]]; by destruct (kwargs !! "pretrained").
Qed.

#[local] Hint Resolve no_ValueError_ret no_ValueError_getattr
  no_ValueError_children no_ValueError_items no_ValueError_getitem_last
  no_ValueError_nn_Sequential no_ValueError_construct
  no_ValueError_bind_pretrained : no_value_error.

Ltac no_value_error :=
  repeat (apply no_ValueError_bind; [auto with no_value_error | intros ?]);
  auto with no_value_error.

Lemma torchvision_family_no_ValueError w name pretrained :
  name ∈ TORCHVISION_MODELS →
  no_ValueError (torchvision_backbone_and_num_features w name pretrained).
Proof.
  intros Hname. unfold torchvision_backbone_and_num_features.
  destruct (torchvision_models w name) as [model|]; [|by intros msg].
  repeat case_decide.
  - no_value_error.
  - no_value_error.
  - no_value_error.
  - apply torchvision_families in Hname. tauto.
Qed.

(** C10.  Every name of the umbrella table is in one of the three
    family tables that [torchvision_backbone_and_num_features] tests,
    so for such a name neither that function nor
    [backbone_and_num_features] ends in the final [ValueError]
    (failures inside torchvision are [LibraryError]s, and the other
    exceptions of the function are of other classes).  The function
    ends in a [ValueError] exactly when the registry holds the name
    and the umbrella table does not; the message is then that of the
    final [raise] and nothing was constructed. *)
Theorem torchvision_fall_through_reach
    (w : World) (name : string) (pretrained : Obj) :
  (name ∈ TORCHVISION_MODELS →
     name ∈ MOBILENET_MODELS ++ VGG_MODELS ∨ name ∈ RESNET_MODELS
     ∨ name ∈ DENSENET_MODELS)
  ∧ (name ∈ TORCHVISION_MODELS →
     no_ValueError (torchvision_backbone_and_num_features w name pretrained))
  ∧ (name ∈ TORCHVISION_MODELS →
     ∀ args kwargs,
       no_ValueError (backbone_and_num_features w name args kwargs))
  ∧ (∀ msg,
       outcome (torchvision_backbone_and_num_features w name pretrained)
       = inl (ValueError msg)
       ↔ is_Some (torchvision_models w name)
         ∧ (name ∉ TORCHVISION_MODELS)
         ∧ msg = not_supported_yet name)
  ∧ (is_Some (torchvision_models w name) → name ∉ TORCHVISION_MODELS →
     torchvision_backbone_and_num_features w name pretrained
     = ([], inl (ValueError (not_supported_yet name)))).
Proof.
  assert (Hfall : is_Some (torchvision_models w name) →
                  name ∉ TORCHVISION_MODELS →
                  torchvision_backbone_and_num_features w name pretrained
                  = ([], inl (ValueError (not_supported_yet name)))).
  { intros [model Hreg] Hout. rewrite torchvision_families in Hout.
    unfold torchvision_backbone_and_num_features. rewrite Hreg.
    rewrite !decide_False by tauto. reflexivity. }
  split; [|split; [|split; [|split]]].
  - apply torchvision_families.
  - apply torchvision_family_no_ValueError.
  - intros Hname args kwargs. rewrite backbone_torchvision_path by done.
    apply no_ValueError_bind; [apply no_ValueError_bind_pretrained|].
    intros v. by apply torchvision_family_no_ValueError.
  - intros msg. split.
    + intros H.
      destruct (decide (name ∈ TORCHVISION_MODELS)) as [Hin|Hout].
      { by destruct (torchvision_family_no_ValueError w name pretrained Hin msg). }
      destruct (torchvision_models w name) as [model|] eqn:Hreg.
      * rewrite (Hfall (mk_is_Some _ _ eq_refl) Hout) in H.
        injection H as <-. eauto.
      * unfold torchvision_backbone_and_num_features in H.
        rewrite Hreg in H. discriminate H.
    + intros (Hs & Hout & ->). by rewrite (Hfall Hs Hout).
  - exact Hfall.
Qed.

(** A constructor the registry has and no table lists: the final
    [raise] is reached. *)
Lemma torchvision_fall_through_reach_witness :
  torchvision_backbone_and_num_features (Zoo.world true) "alexnet"
    (PyBool true)
  = ([], inl (ValueError "alexnet is not supported yet."))
  ∧ no_ValueError
      (backbone_and_num_features (Zoo.world true) "densenet121" [] ∅).
Proof.
  split.
  - apply (torchvision_fall_through_reach (Zoo.world true) "alexnet"
             (PyBool true)).
    + vm_compute. eauto.
    + apply (bool_decide_unpack _). vm_compute. exact I.
  - apply (torchvision_fall_through_reach (Zoo.world true) "densenet121"
             (PyBool true)).
    apply (bool_decide_unpack _). vm_compute. exact I.
Defined.

(** * Further properties of the resolvers *)

(** ** Traces and outcomes of composed computations *)

Lemma outcome_bind {A B} (m : M A) (f : A → M B) :
  outcome (x <- m ;; f x)
  = match outcome m with inl e => inl e | inr a => outcome (f a) end.
Proof.
  destruct m as [t [e|a]]; [done|].
  unfold bind, outcome; simpl. by destruct (f a).
Qed.

Lemma trace_bind {A B} (m : M A) (f : A → M B) :
  trace (x <- m ;; f x)
  = trace m ++ match outcome m with inl _ => [] | inr a => trace (f a) end.
Proof.
  destruct m as [t [e|a]]; unfold bind, trace, outcome; simpl.
  - by rewrite app_nil_r.
  - by destruct (f a).
Qed.

Lemma silent_eq {A} (m : M A) : silent m → m = ([], outcome m).
Proof. destruct m as [t r]. unfold silent, trace, outcome; simpl. by intros ->. Qed.

Create HintDb silent.

Lemma silent_ret {A} (a : A) : silent (ret a).
Proof. done. Qed.

Lemma silent_raise {A} (e : Exn) : silent (@raise A e).
Proof. done. Qed.

Lemma silent_bind {A B} (m : M A) (f : A → M B) :
  silent m → (∀ a, silent (f a)) → silent (x <- m ;; f x).
Proof.
  unfold silent. intros Hm Hf. rewrite trace_bind, Hm.
  destruct (outcome m); [done|apply Hf].
Qed.

Lemma silent_getattr o name : silent (getattr o name).
Proof.
  destruct o as [| | | |cls container ms]; try done.
  simpl. by destruct (assoc name ms).
Qed.

Lemma silent_children o : silent (children o).
Proof. by destruct o. Qed.

Lemma silent_items o : silent (items o).
Proof. by destruct o as [| | | |cls [] ms]. Qed.

Lemma silent_getitem_last o : silent (getitem_last o).
Proof.
  apply silent_bind; [apply silent_items|]. intros xs. by destruct (last xs).
Qed.

Lemma silent_nn_Sequential mods : silent (nn_Sequential mods).
Proof. unfold nn_Sequential. by destruct (forallb is_module mods). Qed.

Lemma bind_pretrained_cases args kwargs :
  (∃ v, bind_pretrained args kwargs = ret v)
  ∨ bind_pretrained args kwargs = raise TypeError.
Proof.
  unfold bind_pretrained. case_decide; [|by right].
  destruct args as [|v [|v' args]]; destruct (kwargs !! "pretrained"); eauto.
Qed.

Lemma silent_bind_pretrained args kwargs : silent (bind_pretrained args kwargs).
Proof. by destruct (bind_pretrained_cases args kwargs) as [[v ->]| ->]. Qed.

#[local] Hint Resolve silent_ret silent_raise silent_getattr silent_children
  silent_items silent_getitem_last silent_nn_Sequential
  silent_bind_pretrained : silent.

Ltac silent :=
  repeat (apply silent_bind; [auto with silent | intros ?]);
  auto with silent.

(** After one external call and silent steps, the trace is that call. *)
Lemma trace_after_external {A B} (ev : Event) (r : Exn + A) (f : A → M B) :
  (∀ a, silent (f a)) → trace (x <- ([ev], r) ;; f x) = [ev].
Proof.
  intros Hf. rewrite trace_bind. unfold trace at 1, outcome; simpl.
  destruct r as [e|a]; [done|]. by rewrite (Hf a).
Qed.

(** ** The module's own exceptions *)

Create HintDb no_diagnostic.

Lemma no_diagnostic_ret {A} (a : A) : no_diagnostic (ret a).
Proof. by intros e. Qed.

Lemma no_diagnostic_bind {A B} (m : M A) (f : A → M B) :
  no_diagnostic m → (∀ a, no_diagnostic (f a)) →
  no_diagnostic (x <- m ;; f x).
Proof.
  intros Hm Hf e. rewrite outcome_bind.
  destruct (outcome m) as [e'|a] eqn:E.
  - intros [= <-]. by apply Hm.
  - apply Hf.
Qed.

(** Closes [outcome m = inl e → ¬ is_diagnostic e] for a [m] that is a
    plain [ret] or a [raise] of another exception. *)
Ltac other_exception :=
  let H := fresh in
  intros H; cbv [outcome raise ret snd] in H;
  first [discriminate H | injection H as <-; exact id].

Lemma no_diagnostic_getattr o name : no_diagnostic (getattr o name).
Proof.
  intros e. destruct o as [| | | |cls container ms]; simpl;
    try destruct (assoc name ms); other_exception.
Qed.

Lemma no_diagnostic_children o : no_diagnostic (children o).
Proof. intros e. destruct o; simpl; other_exception. Qed.

Lemma no_diagnostic_items o : no_diagnostic (items o).
Proof.
  intros e. destruct o as [| | | |cls [] ms]; simpl; other_exception.
Qed.

Lemma no_diagnostic_getitem_last o : no_diagnostic (getitem_last o).
Proof.
  apply no_diagnostic_bind; [apply no_diagnostic_items|].
  intros xs e. destruct (last xs); other_exception.
Qed.

Lemma no_diagnostic_nn_Sequential mods : no_diagnostic (nn_Sequential mods).
Proof.
  intros e. unfold nn_Sequential.
  destruct (forallb is_module mods); other_exception.
Qed.

Lemma no_diagnostic_external (ev : Event) (r : string + Obj) :
  no_diagnostic ([ev], from_library r).
Proof. intros e. destruct r; simpl; other_exception. Qed.

Lemma no_diagnostic_bind_pretrained args kwargs :
  no_diagnostic (bind_pretrained args kwargs).
Proof.
  destruct (bind_pretrained_cases args kwargs) as [[v ->]| ->]; intros e;
    other_exception.
Qed.

#[local] Hint Resolve no_diagnostic_ret no_diagnostic_getattr
  no_diagnostic_children no_diagnostic_items no_diagnostic_getitem_last
  no_diagnostic_nn_Sequential no_diagnostic_bind_pretrained : no_diagnostic.

Ltac no_diagnostic :=
  repeat (apply no_diagnostic_bind;
          [first [apply no_diagnostic_external | auto with no_diagnostic]
          | intros ?]);
  auto with no_diagnostic.

Lemma no_diagnostic_no_ValueError {A} (m : M A) :
  no_diagnostic m → no_ValueError m.
Proof. intros H msg E. by apply (H _ E). Qed.

(** ** Shape of the three functions *)

Lemma family_in_umbrella name :
  name ∉ TORCHVISION_MODELS →
  (name ∉ MOBILENET_MODELS ++ VGG_MODELS) ∧ (name ∉ RESNET_MODELS)
  ∧ (name ∉ DENSENET_MODELS).
Proof. rewrite torchvision_families. tauto. Qed.

Lemma densenet_not_other_family name :
  name ∈ DENSENET_MODELS →
  (name ∉ MOBILENET_MODELS ++ VGG_MODELS) ∧ (name ∉ RESNET_MODELS).
Proof.
  assert (H : Forall (λ n, (n ∉ MOBILENET_MODELS ++ VGG_MODELS)
                           ∧ (n ∉ RESNET_MODELS)) DENSENET_MODELS)
    by (apply (bool_decide_unpack _); vm_compute; exact I).
  rewrite Forall_forall in H. apply H.
Qed.

Lemma torchvision_trace w name pretrained :
  trace (torchvision_backbone_and_num_features w name pretrained)
  = match torchvision_models w name with
    | Some _ =>
        if decide (name ∈ TORCHVISION_MODELS)
        then [EvConstruct name pretrained] else []
    | None => []
    end.
Proof.
  unfold torchvision_backbone_and_num_features.
  destruct (torchvision_models w name) as [model|]; [|done].
  destruct (decide (name ∈ TORCHVISION_MODELS)) as [Hin|Hout].
  - apply torchvision_families in Hin. unfold construct.
    repeat case_decide; [| | |tauto]; apply trace_after_external; intros;
      silent.
  - apply family_in_umbrella in Hout as (H1 & H2 & H3).
    by rewrite !decide_False.
Qed.

Lemma torchvision_constructed_no_diagnostic w name pretrained :
  is_Some (torchvision_models w name) → name ∈ TORCHVISION_MODELS →
  no_diagnostic (torchvision_backbone_and_num_features w name pretrained).
Proof.
  intros [model Hreg] Hin. apply torchvision_families in Hin.
  unfold torchvision_backbone_and_num_features. rewrite Hreg.
  unfold construct. repeat case_decide; [| | |tauto]; no_diagnostic.
Qed.

Lemma load_simclr_trace w url :
  trace (load_simclr_imagenet w url) = [EvLoadCheckpoint "SimCLR" url false].
Proof.
  unfold load_simclr_imagenet, load_from_checkpoint.
  apply trace_after_external; intros; silent.
Qed.

Lemma load_swav_trace w url :
  trace (load_swav_imagenet w url) = [EvLoadCheckpoint "SwAV" url true].
Proof.
  unfold load_swav_imagenet, load_from_checkpoint.
  apply trace_after_external; intros; silent.
Qed.

Lemma load_simclr_no_diagnostic w url :
  no_diagnostic (load_simclr_imagenet w url).
Proof. unfold load_simclr_imagenet, load_from_checkpoint. no_diagnostic. Qed.

Lemma load_swav_no_diagnostic w url :
  no_diagnostic (load_swav_imagenet w url).
Proof. unfold load_swav_imagenet, load_from_checkpoint. no_diagnostic. Qed.

Lemma bolts_table_names name :
  name ∈ BOLTS_MODELS ↔ name = "simclr-imagenet" ∨ name = "swav-imagenet".
Proof.
  unfold BOLTS_MODELS. rewrite !elem_of_cons, elem_of_nil. tauto.
Qed.

(** With the library present, a recognized name runs its loader on
    the default location. *)
Lemma bolts_available_simclr w :
  _BOLTS_AVAILABLE w = true →
  bolts_backbone_and_num_features w "simclr-imagenet"
  = load_simclr_imagenet w simclr_imagenet_url.
Proof.
  intros H. unfold bolts_backbone_and_num_features. rewrite H; simpl.
  by rewrite models_lookup_simclr.
Qed.

Lemma bolts_available_swav w :
  _BOLTS_AVAILABLE w = true →
  bolts_backbone_and_num_features w "swav-imagenet"
  = load_swav_imagenet w swav_imagenet_url.
Proof.
  intros H. unfold bolts_backbone_and_num_features. rewrite H; simpl.
  by rewrite models_lookup_swav.
Qed.

Lemma bolts_available_other w name :
  _BOLTS_AVAILABLE w = true → name ∉ BOLTS_MODELS →
  bolts_backbone_and_num_features w name
  = raise (ValueError (not_supported_yet name)).
Proof.
  intros H Hname. unfold bolts_backbone_and_num_features. rewrite H; simpl.
  by rewrite models_lookup_other.
Qed.

Lemma bolts_loaded_no_diagnostic w name :
  _BOLTS_AVAILABLE w = true → name ∈ BOLTS_MODELS →
  no_diagnostic (bolts_backbone_and_num_features w name).
Proof.
  intros Hav [-> | ->]%bolts_table_names.
  - rewrite bolts_available_simclr by done. apply load_simclr_no_diagnostic.
  - rewrite bolts_available_swav by done. apply load_swav_no_diagnostic.
Qed.

Lemma bolts_loaded_trace w name :
  _BOLTS_AVAILABLE w = true → name ∈ BOLTS_MODELS →
  trace (bolts_backbone_and_num_features w name)
  = [if decide (name = "simclr-imagenet")
     then simclr_load_event else swav_load_event].
Proof.
  intros Hav [-> | ->]%bolts_table_names.
  - rewrite bolts_available_simclr by done. apply load_simclr_trace.
  - rewrite bolts_available_swav by done. apply load_swav_trace.
Qed.

(** ** The densely-connected family *)

Lemma items_of_module o layers :
  is_module o = true → items o = ret layers →
  forallb is_module layers = true.
Proof.
  destruct o as [| | | |cls [] ms]; try discriminate. intros _ [= <-].
  apply child_modules_modules.
Qed.

Lemma with_ReLU_modules layers :
  forallb is_module layers = true →
  forallb is_module (layers ++ [ReLU_inplace]) = true.
Proof. intros H. by rewrite forallb_app, H. Qed.

(** X1.  For a name of the dense table whose constructor the registry
    holds and which builds a network whose [features] is a container
    module, the feature extractor is the [nn.Sequential] module whose
    children are the layers of [features], in order, followed by one
    in-place ReLU, and the width is the [in_features] of the network's
    [classifier]; the network is constructed once. *)
Theorem densenet_backbone_and_width
    (w : World) (name : string) (pretrained : Obj)
    (model : Obj → string + Obj) (net features : Obj) (layers : list Obj)
    (classifier width : Obj) :
  name ∈ DENSENET_MODELS →
  torchvision_models w name = Some model →
  model pretrained = inr net →
  getattr net "features" = ret features →
  is_module features = true →
  items features = ret layers →
  getattr net "classifier" = ret classifier →
  getattr classifier "in_features" = ret width →
  torchvision_backbone_and_num_features w name pretrained
  = ([EvConstruct name pretrained],
     inr (PyModule "Sequential" true
            (imap (λ i m, (pretty i, m))
               (layers ++ [PyModule "ReLU" false [("inplace", PyBool true)]])),
          width))
  ∧ children
      (PyModule "Sequential" true
         (imap (λ i m, (pretty i, m))
            (layers ++ [PyModule "ReLU" false [("inplace", PyBool true)]])))
    = ret (layers ++ [PyModule "ReLU" false [("inplace", PyBool true)]]).
Proof.
  intros Hname Hreg Hnet Hfeat Hmod Hitems Hcls Hwidth.
  assert (Hmods : forallb is_module (layers ++ [ReLU_inplace]) = true)
    by (eapply with_ReLU_modules, items_of_module; eauto).
  split.
  - destruct (densenet_not_other_family name Hname) as [H1 H2].
    unfold torchvision_backbone_and_num_features. rewrite Hreg.
    rewrite !decide_False by done. rewrite decide_True by done.
    rewrite (construct_ok _ _ _ _ Hnet), bind_external.
    rewrite Hfeat, bind_ret, Hitems, bind_ret.
    rewrite nn_Sequential_modules, bind_ret by done.
    by rewrite Hcls, bind_ret, Hwidth, bind_ret.
  - by apply (children_Sequential (layers ++ [ReLU_inplace])).
Qed.

Lemma densenet_backbone_and_width_witness :
  torchvision_backbone_and_num_features (Zoo.world true) "densenet121"
    (PyBool true)
  = ([EvConstruct "densenet121" (PyBool true)],
     inr (PyModule "Sequential" true
            [("0", PyModule "Conv2d" false []);
             ("1", PyModule "BatchNorm2d" false []);
             ("2", PyModule "ReLU" false []);
             ("3", PyModule "MaxPool2d" false []);
             ("4", PyModule "_DenseBlock" false []);
             ("5", PyModule "BatchNorm2d" false []);
             ("6", PyModule "ReLU" false [("inplace", PyBool true)])],
          PyInt 1024))
  ∧ children
      (PyModule "Sequential" true
         [("0", PyModule "Conv2d" false []);
          ("1", PyModule "BatchNorm2d" false []);
          ("2", PyModule "ReLU" false []);
          ("3", PyModule "MaxPool2d" false []);
          ("4", PyModule "_DenseBlock" false []);
          ("5", PyModule "BatchNorm2d" false []);
          ("6", PyModule "ReLU" false [("inplace", PyBool true)])])
    = ret [PyModule "Conv2d" false []; PyModule "BatchNorm2d" false [];
           PyModule "ReLU" false []; PyModule "MaxPool2d" false [];
           PyModule "_DenseBlock" false []; PyModule "BatchNorm2d" false [];
           PyModule "ReLU" false [("inplace", PyBool true)]].
Proof.
  apply (densenet_backbone_and_width (Zoo.world true) "densenet121"
           (PyBool true) (λ _, inr (Zoo.densenet 1024)) (Zoo.densenet 1024)
           (Zoo.Seq [("conv0", Zoo.Layer "Conv2d");
                     ("norm0", Zoo.Layer "BatchNorm2d");
                     ("relu0", Zoo.Layer "ReLU");
                     ("pool0", Zoo.Layer "MaxPool2d");
                     ("denseblock1", Zoo.Layer "_DenseBlock");
                     ("norm5", Zoo.Layer "BatchNorm2d")])
           [Zoo.Layer "Conv2d"; Zoo.Layer "BatchNorm2d"; Zoo.Layer "ReLU";
            Zoo.Layer "MaxPool2d"; Zoo.Layer "_DenseBlock";
            Zoo.Layer "BatchNorm2d"]
           (Zoo.Linear 1024 1000) (PyInt 1024));
    [apply (bool_decide_unpack _); vm_compute; exact I | reflexivity ..].
Defined.

(** ** Binding of the construction arguments *)

(** X2.  For a torchvision name, the entry point called without
    construction argument runs the torchvision resolver with
    [pretrained = True]; a single positional argument and the keyword
    [pretrained] are two ways to pass the same value, which reaches the
    resolver as it is. *)
Theorem pretrained_default_and_keyword
    (w : World) (name : string) (v : Obj) :
  name ∈ TORCHVISION_MODELS →
  backbone_and_num_features w name [] ∅
  = torchvision_backbone_and_num_features w name (PyBool true)
  ∧ backbone_and_num_features w name [v] ∅
    = torchvision_backbone_and_num_features w name v
  ∧ backbone_and_num_features w name [] {[ "pretrained" := v ]}
    = torchvision_backbone_and_num_features w name v.
Proof.
  intros Hname. rewrite !backbone_torchvision_path by done.
  unfold bind_pretrained.
  rewrite !decide_True
    by (rewrite ?dom_empty_L, ?dom_singleton_L;
        first [apply empty_subseteq | reflexivity]).
  rewrite lookup_empty, lookup_singleton_eq. by rewrite !bind_ret.
Qed.

Lemma pretrained_default_and_keyword_witness :
  backbone_and_num_features (Zoo.world true) "resnet34" [] ∅
  = torchvision_backbone_and_num_features (Zoo.world true) "resnet34"
      (PyBool true)
  ∧ backbone_and_num_features (Zoo.world true) "resnet34" [PyBool false] ∅
    = torchvision_backbone_and_num_features (Zoo.world true) "resnet34"
        (PyBool false)
  ∧ backbone_and_num_features (Zoo.world true) "resnet34" []
      {[ "pretrained" := PyBool false ]}
    = torchvision_backbone_and_num_features (Zoo.world true) "resnet34"
        (PyBool false).
Proof.
  apply (pretrained_default_and_keyword (Zoo.world true) "resnet34"
           (PyBool false)).
  apply (bool_decide_unpack _). vm_compute. exact I.
Defined.

(** X3.  For a torchvision name, construction arguments that do not
    fit the one parameter [pretrained] (a second positional argument,
    a keyword of another name, or the value given both positionally and
    by keyword) end the call in [TypeError] with an empty trace,
    whatever the registry holds for the name: nothing is constructed,
    and for a name the registry lacks the [TypeError] takes precedence
    over the [MisconfigurationException] of the resolver. *)
Theorem surplus_arguments_rejected
    (w : World) (name : string) (args : list Obj) (kwargs : gmap string Obj) :
  name ∈ TORCHVISION_MODELS →
  (2 ≤ length args)%nat
  ∨ (∃ k, k ≠ "pretrained" ∧ is_Some (kwargs !! k))
  ∨ (args ≠ [] ∧ is_Some (kwargs !! "pretrained")) →
  backbone_and_num_features w name args kwargs = ([], inl TypeError).
Proof.
  intros Hname Hbad. rewrite backbone_torchvision_path by done.
  assert (E : bind_pretrained args kwargs = raise TypeError);
    [|by rewrite E].
  unfold bind_pretrained. case_decide as Hdom; [|done].
  destruct Hbad as [Hlen | [(k & Hk & Hsome) | [Hne [v Hv]]]].
  - destruct args as [|a [|b args]]; simpl in Hlen; try lia.
    by destruct (kwargs !! "pretrained").
  - apply elem_of_dom, Hdom, elem_of_singleton in Hsome. done.
  - rewrite Hv. by destruct args as [|a [|b args]].
Qed.

(** The registry lacks the name, and still the outcome is the
    [TypeError]. *)
Lemma surplus_arguments_rejected_witness :
  backbone_and_num_features
    {| _BOLTS_AVAILABLE := true;
       torchvision_models := λ _, None;
       SimCLR_load_from_checkpoint := λ _ _, inl "offline";
       SwAV_load_from_checkpoint := λ _ _, inl "offline" |}
    "vgg19" [] {[ "progress" := PyBool false ]}
  = ([], inl TypeError).
Proof.
  apply (surplus_arguments_rejected _ "vgg19" []
           {[ "progress" := PyBool false ]}).
  - apply (bool_decide_unpack _). vm_compute. exact I.
  - right; left. exists "progress". split; [discriminate|].
    rewrite lookup_singleton_eq. eauto.
Defined.

(** ** Failures inside the libraries *)

(** X4.  When the constructor of a torchvision name fails, the
    resolver ends in that very failure after the single construction
    attempt: nothing is retried, caught or translated. *)
Theorem construction_failure_propagates
    (w : World) (name : string) (pretrained : Obj)
    (model : Obj → string + Obj) (what : string) :
  name ∈ TORCHVISION_MODELS →
  torchvision_models w name = Some model →
  model pretrained = inl what →
  torchvision_backbone_and_num_features w name pretrained
  = ([EvConstruct name pretrained], inl (LibraryError what)).
Proof.
  intros Hname Hreg Hfail. apply torchvision_families in Hname.
  unfold torchvision_backbone_and_num_features. rewrite Hreg.
  unfold construct. rewrite Hfail; simpl.
  repeat case_decide; try done. tauto.
Qed.

Lemma construction_failure_propagates_witness :
  torchvision_backbone_and_num_features
    {| _BOLTS_AVAILABLE := true;
       torchvision_models := λ _, Some (λ _, inl "HTTP Error 503");
       SimCLR_load_from_checkpoint := λ _ _, inl "offline";
       SwAV_load_from_checkpoint := λ _ _, inl "offline" |}
    "resnet50" (PyBool true)
  = ([EvConstruct "resnet50" (PyBool true)],
     inl (LibraryError "HTTP Error 503")).
Proof.
  apply (construction_failure_propagates _ "resnet50" (PyBool true)
           (λ _, inl "HTTP Error 503") "HTTP Error 503").
  - apply (bool_decide_unpack _). vm_compute. exact I.
  - reflexivity.
  - reflexivity.
Defined.

(** X5.  With the bolts library present, a checkpoint load that fails
    ends the bolts resolver in that very failure, after the single load
    from the default location. *)
Theorem checkpoint_failure_propagates (w : World) (what : string) :
  _BOLTS_AVAILABLE w = true →
  (SimCLR_load_from_checkpoint w simclr_imagenet_url false = inl what →
   bolts_backbone_and_num_features w "simclr-imagenet"
   = ([simclr_load_event], inl (LibraryError what)))
  ∧ (SwAV_load_from_checkpoint w swav_imagenet_url true = inl what →
     bolts_backbone_and_num_features w "swav-imagenet"
     = ([swav_load_event], inl (LibraryError what))).
Proof.
  intros Hav. split; intros Hfail.
  - rewrite bolts_available_simclr by done.
    unfold load_simclr_imagenet, load_from_checkpoint. by rewrite Hfail.
  - rewrite bolts_available_swav by done.
    unfold load_swav_imagenet, load_from_checkpoint. by rewrite Hfail.
Qed.

Lemma checkpoint_failure_propagates_witness :
  bolts_backbone_and_num_features
    {| _BOLTS_AVAILABLE := true;
       torchvision_models := λ _, None;
       SimCLR_load_from_checkpoint := λ _ _, inl "offline";
       SwAV_load_from_checkpoint := λ _ _, inl "offline" |}
    "simclr-imagenet"
  = ([simclr_load_event], inl (LibraryError "offline")).
Proof.
  apply (checkpoint_failure_propagates _ "offline"); reflexivity.
Defined.

(** ** When the module's own exceptions arise *)

(** X6.  The bolts resolver ends in [ValueError] exactly when the
    library is present and the name is outside the bolts table: the
    keys of the local dict [models] are the names of [BOLTS_MODELS]. *)
Theorem bolts_ValueError_iff (w : World) (name msg : string) :
  outcome (bolts_backbone_and_num_features w name) = inl (ValueError msg)
  ↔ _BOLTS_AVAILABLE w = true ∧ (name ∉ BOLTS_MODELS)
    ∧ msg = not_supported_yet name.
Proof.
  destruct (_BOLTS_AVAILABLE w) eqn:Hav.
  - destruct (decide (name ∈ BOLTS_MODELS)) as [Hin|Hout].
    + split.
      * intros H. by destruct (bolts_loaded_no_diagnostic w name Hav Hin _ H).
      * by intros (_ & Hout & _).
    + rewrite bolts_available_other by done. split.
      * by intros [= <-].
      * by intros (_ & _ & ->).
  - rewrite bolts_unavailable by done. split; [discriminate|].
    by intros (? & _).
Qed.

(** X7.  The entry point ends in [ValueError] exactly for a name in
    neither table, with the message of its own final [raise]: for a
    name it dispatches, neither resolver's final [raise] is reached. *)
Theorem entry_ValueError_iff
    (w : World) (name : string) (args : list Obj) (kwargs : gmap string Obj)
    (msg : string) :
  outcome (backbone_and_num_features w name args kwargs)
  = inl (ValueError msg)
  ↔ (name ∉ BOLTS_MODELS) ∧ (name ∉ TORCHVISION_MODELS)
    ∧ msg = not_supported_yet name.
Proof.
  rewrite backbone_and_num_features_body.
  case_decide as Hb; [|case_decide as Ht].
  - split; [|tauto]. intros H. exfalso.
    destruct (_BOLTS_AVAILABLE w) eqn:Hav.
    + by destruct (bolts_loaded_no_diagnostic w name Hav Hb _ H).
    + by rewrite bolts_unavailable in H.
  - split; [|tauto]. intros H. exfalso. revert H.
    apply no_ValueError_bind.
    + apply no_diagnostic_no_ValueError, no_diagnostic_bind_pretrained.
    + intros v. by apply torchvision_family_no_ValueError.
  - split.
    + by intros [= <-].
    + by intros (_ & _ & ->).
Qed.

Lemma torchvision_registry_miss w name pretrained :
  torchvision_models w name = None →
  torchvision_backbone_and_num_features w name pretrained
  = raise (MisconfigurationException (not_supported_by_torchvision name)).
Proof.
  intros H. unfold torchvision_backbone_and_num_features. by rewrite H.
Qed.

(** X8.  The entry point ends in [MisconfigurationException] in
    exactly two situations: a bolts name while the bolts library is
    absent, or a torchvision name, with construction arguments that
    bind, which the torchvision registry does not hold. *)
Theorem entry_Misconfiguration_iff
    (w : World) (name : string) (args : list Obj) (kwargs : gmap string Obj)
    (msg : string) :
  outcome (backbone_and_num_features w name args kwargs)
  = inl (MisconfigurationException msg)
  ↔ (name ∈ BOLTS_MODELS ∧ _BOLTS_AVAILABLE w = false
     ∧ msg = bolts_not_installed)
    ∨ (name ∈ TORCHVISION_MODELS
       ∧ (∃ v, bind_pretrained args kwargs = ret v)
       ∧ torchvision_models w name = None
       ∧ msg = not_supported_by_torchvision name).
Proof.
  rewrite backbone_and_num_features_body.
  case_decide as Hb; [|case_decide as Ht].
  - pose proof (tables_disjoint name) as Hdis.
    destruct (_BOLTS_AVAILABLE w) eqn:Hav.
    + split.
      * intros H. by destruct (bolts_loaded_no_diagnostic w name Hav Hb _ H).
      * intros [(_ & Hf & _) | (Ht & _)]; [done | by destruct (Hdis Ht)].
    + rewrite bolts_unavailable by done. split.
      * intros [= <-]. by left.
      * intros [(_ & _ & ->) | (Ht & _)]; [done | by destruct (Hdis Ht)].
  - destruct (bind_pretrained_cases args kwargs) as [[v Hv]|Hv]; rewrite Hv.
    + rewrite bind_ret.
      destruct (torchvision_models w name) as [model|] eqn:Hreg.
      * split.
        -- intros H.
           assert (Hs : is_Some (torchvision_models w name))
             by (by rewrite Hreg).
           by destruct
                (torchvision_constructed_no_diagnostic w name v Hs Ht _ H).
        -- intros [(Hb' & _) | (_ & _ & Hn & _)]; done.
      * rewrite torchvision_registry_miss by done. split.
        -- intros [= <-]. right. eauto.
        -- intros [(Hb' & _) | (_ & _ & _ & ->)]; done.
    + rewrite bind_raise. split; [discriminate|].
      intros [(? & _) | (_ & [v' Hv'] & _)]; [done|]. by rewrite Hv' in Hv.
  - split; [discriminate|]. tauto.
Qed.

(** ** External calls made by the entry point *)

Lemma entry_trace_cases w name args kwargs :
  (trace (backbone_and_num_features w name args kwargs) = []
   ∧ ∃ e, outcome (backbone_and_num_features w name args kwargs) = inl e)
  ∨ (name ∈ BOLTS_MODELS
     ∧ trace (backbone_and_num_features w name args kwargs)
       = [if decide (name = "simclr-imagenet")
          then simclr_load_event else swav_load_event]
     ∧ no_diagnostic (backbone_and_num_features w name args kwargs))
  ∨ (name ∈ TORCHVISION_MODELS
     ∧ ∃ v, bind_pretrained args kwargs = ret v
            ∧ trace (backbone_and_num_features w name args kwargs)
              = [EvConstruct name v]
            ∧ no_diagnostic (backbone_and_num_features w name args kwargs)).
Proof.
  rewrite backbone_and_num_features_body.
  case_decide as Hb; [|case_decide as Ht].
  - destruct (_BOLTS_AVAILABLE w) eqn:Hav.
    + right; left. split; [done|]. split.
      * by apply bolts_loaded_trace.
      * by apply bolts_loaded_no_diagnostic.
    + left. rewrite bolts_unavailable by done. eauto.
  - destruct (bind_pretrained_cases args kwargs) as [[v Hv]|Hv]; rewrite Hv.
    + rewrite bind_ret.
      destruct (torchvision_models w name) as [model|] eqn:Hreg.
      * right; right. split; [done|]. exists v. split; [done|]. split.
        -- rewrite torchvision_trace, Hreg. by rewrite decide_True.
        -- apply torchvision_constructed_no_diagnostic; [|done].
           by rewrite Hreg.
      * left. rewrite torchvision_registry_miss by done. eauto.
    + left. rewrite bind_raise. eauto.
  - left. eauto.
Qed.

(** X9.  Whenever the entry point ends in one of the module's own
    exceptions ([ValueError] or [MisconfigurationException]), no
    external call was made: an unsupported name or a missing library
    is reported before anything is downloaded or built. *)
Theorem diagnostics_precede_external_calls
    (w : World) (name : string) (args : list Obj) (kwargs : gmap string Obj)
    (e : Exn) :
  outcome (backbone_and_num_features w name args kwargs) = inl e →
  is_diagnostic e →
  trace (backbone_and_num_features w name args kwargs) = [].
Proof.
  intros He Hd.
  destruct (entry_trace_cases w name args kwargs)
    as [[Ht _] | [(_ & _ & Hn) | (_ & v & _ & _ & Hn)]];
    [done | by destruct (Hn e He) ..].
Qed.

Lemma diagnostics_precede_external_calls_witness :
  trace (backbone_and_num_features (Zoo.world false) "swav-imagenet" [] ∅)
  = [].
Proof.
  apply (diagnostics_precede_external_calls (Zoo.world false) "swav-imagenet"
           [] ∅ (MisconfigurationException bolts_not_installed)).
  - reflexivity.
  - exact I.
Defined.

(** X10.  A call of the entry point makes at most one external call,
    and a call that returns made exactly one: every resolved backbone
    costs one construction or one checkpoint load. *)
Theorem one_external_call
    (w : World) (name : string) (args : list Obj) (kwargs : gmap string Obj) :
  (length (trace (backbone_and_num_features w name args kwargs)) ≤ 1)%nat
  ∧ (∀ r, outcome (backbone_and_num_features w name args kwargs) = inr r →
          length (trace (backbone_and_num_features w name args kwargs))
          = 1%nat).
Proof.
  destruct (entry_trace_cases w name args kwargs)
    as [[Ht [e He]] | [(_ & Ht & _) | (_ & v & _ & Ht & _)]];
    rewrite Ht; simpl; split; try lia; try done.
  intros r Hr. by rewrite Hr in He.
Qed.

Lemma one_external_call_witness :
  length (trace (backbone_and_num_features (Zoo.world true) "resnet18" [] ∅))
  = 1%nat.
Proof.
  eapply (proj2 (one_external_call (Zoo.world true) "resnet18" [] ∅)).
  vm_compute. reflexivity.
Defined.

(** X11.  The only external calls the entry point makes are: for a
    torchvision name, the construction of the network of that name
    with the bound [pretrained] value; for ["simclr-imagenet"] and
    ["swav-imagenet"], the load of the SimCLR, respectively SwAV,
    checkpoint from its fixed location under [ROOT_S3_BUCKET].  No
    other network is built and no other location is read, whatever the
    construction arguments. *)
Theorem external_calls_are_the_requested_ones
    (w : World) (name : string) (args : list Obj) (kwargs : gmap string Obj)
    (ev : Event) :
  ev ∈ trace (backbone_and_num_features w name args kwargs) →
  (name ∈ TORCHVISION_MODELS
   ∧ ∃ v, bind_pretrained args kwargs = ret v ∧ ev = EvConstruct name v)
  ∨ (name = "simclr-imagenet"
     ∧ ev = EvLoadCheckpoint "SimCLR"
              "https://pl-bolts-weights.s3.us-east-2.amazonaws.com/simclr/bolts_simclr_imagenet/simclr_imagenet.ckpt"
              false)
  ∨ (name = "swav-imagenet"
     ∧ ev = EvLoadCheckpoint "SwAV"
              "https://pl-bolts-weights.s3.us-east-2.amazonaws.com/swav/swav_imagenet/swav_imagenet.pth.tar"
              true).
Proof.
  destruct (entry_trace_cases w name args kwargs)
    as [[Ht _] | [(Hb & Ht & _) | (Hin & v & Hv & Ht & _)]];
    rewrite Ht.
  - by intros ?%elem_of_nil.
  - intros ->%list_elem_of_singleton. right.
    apply bolts_table_names in Hb as [-> | ->]; [left|right]; done.
  - intros ->%list_elem_of_singleton. left. eauto.
Qed.

Lemma external_calls_are_the_requested_ones_witness :
  (("vgg13" ∈ TORCHVISION_MODELS)
   ∧ ∃ v, bind_pretrained [PyInt 0] ∅ = ret v
          ∧ EvConstruct "vgg13" (PyInt 0) = EvConstruct "vgg13" v)
  ∨ ("vgg13" = "simclr-imagenet"
     ∧ EvConstruct "vgg13" (PyInt 0)
       = EvLoadCheckpoint "SimCLR"
           "https://pl-bolts-weights.s3.us-east-2.amazonaws.com/simclr/bolts_simclr_imagenet/simclr_imagenet.ckpt"
           false)
  ∨ ("vgg13" = "swav-imagenet"
     ∧ EvConstruct "vgg13" (PyInt 0)
       = EvLoadCheckpoint "SwAV"
           "https://pl-bolts-weights.s3.us-east-2.amazonaws.com/swav/swav_imagenet/swav_imagenet.pth.tar"
           true).
Proof.
  apply (external_calls_are_the_requested_ones (Zoo.world true) "vgg13"
           [PyInt 0] ∅ (EvConstruct "vgg13" (PyInt 0))).
  assert (E : trace (backbone_and_num_features (Zoo.world true) "vgg13"
                       [PyInt 0] ∅)
              = [EvConstruct "vgg13" (PyInt 0)]) by (vm_compute; reflexivity).
  rewrite E. by apply list_elem_of_singleton.
Defined.

(** ** The truncated network *)

Lemma all_but_last_two_split {A} (l : list A) :
  all_but_last_two l ++ drop (length l - 2) l = l.
Proof. apply take_drop. Qed.

Lemma all_but_last_two_length {A} (l : list A) :
  length (all_but_last_two l) = (length l - 2)%nat.
Proof. unfold all_but_last_two. rewrite length_take. lia. Qed.

Lemma all_but_last_two_short {A} (l : list A) :
  (length l ≤ 2)%nat → all_but_last_two l = [].
Proof.
  intros H. unfold all_but_last_two.
  by replace (length l - 2)%nat with 0%nat by lia.
Qed.

Lemma resnet_branch w name pretrained model net layers fc width :
  name ∈ RESNET_MODELS →
  torchvision_models w name = Some model →
  model pretrained = inr net →
  children net = ret layers →
  getattr net "fc" = ret fc →
  getattr fc "in_features" = ret width →
  torchvision_backbone_and_num_features w name pretrained
  = ([EvConstruct name pretrained],
     inr (Sequential (all_but_last_two layers), width)).
Proof.
  intros Hname Hreg Hnet Hch Hfc Hwidth.
  unfold torchvision_backbone_and_num_features. rewrite Hreg.
  rewrite decide_False by by apply resnet_not_mobilenet_vgg.
  rewrite decide_True by done.
  rewrite (construct_ok _ _ _ _ Hnet), bind_external.
  rewrite Hch, bind_ret, (truncated_Sequential net), bind_ret by done.
  by rewrite Hfc, bind_ret, Hwidth, bind_ret.
Qed.

(** X12.  In the residual branch the children of the returned feature
    extractor are the children of the constructed network, in order,
    without the last two; the two dropped ones are the network's last
    two.  A network with at most two children is not an error: its
    feature extractor is the empty [nn.Sequential]. *)
Theorem resnet_backbone_children
    (w : World) (name : string) (pretrained : Obj)
    (model : Obj → string + Obj) (net : Obj) (layers : list Obj)
    (fc width : Obj) :
  name ∈ RESNET_MODELS →
  torchvision_models w name = Some model →
  model pretrained = inr net →
  children net = ret layers →
  getattr net "fc" = ret fc →
  getattr fc "in_features" = ret width →
  ∃ backbone kept,
    outcome (torchvision_backbone_and_num_features w name pretrained)
    = inr (backbone, width)
    ∧ children backbone = ret kept
    ∧ kept ++ drop (length layers - 2) layers = layers
    ∧ length kept = (length layers - 2)%nat
    ∧ ((length layers ≤ 2)%nat → backbone = Sequential []).
Proof.
  intros Hname Hreg Hnet Hch Hfc Hwidth.
  exists (Sequential (all_but_last_two layers)), (all_but_last_two layers).
  split; [|split; [|split; [|split]]].
  - by erewrite resnet_branch.
  - apply children_Sequential, all_but_last_two_modules.
    by eapply children_modules.
  - apply all_but_last_two_split.
  - apply all_but_last_two_length.
  - intros Hshort. by rewrite all_but_last_two_short.
Qed.

(** A network made of its head alone: the extractor is empty. *)
Lemma resnet_backbone_children_witness :
  ∃ backbone kept,
    outcome
      (torchvision_backbone_and_num_features
         {| _BOLTS_AVAILABLE := false;
            torchvision_models := λ _,
              Some (λ _, inr (PyModule "ResNet" false
                                [("avgpool", Zoo.Layer "AdaptiveAvgPool2d");
                                 ("fc", Zoo.Linear 512 1000)]));
            SimCLR_load_from_checkpoint := λ _ _, inl "offline";
            SwAV_load_from_checkpoint := λ _ _, inl "offline" |}
         "resnet18" (PyBool false))
    = inr (backbone, PyInt 512)
    ∧ children backbone = ret kept
    ∧ kept ++ drop (2 - 2)
                [Zoo.Layer "AdaptiveAvgPool2d"; Zoo.Linear 512 1000]
      = [Zoo.Layer "AdaptiveAvgPool2d"; Zoo.Linear 512 1000]
    ∧ length kept = (2 - 2)%nat
    ∧ ((2 ≤ 2)%nat → backbone = Sequential []).
Proof.
  apply (resnet_backbone_children _ "resnet18" (PyBool false)
           (λ _, inr (PyModule "ResNet" false
                        [("avgpool", Zoo.Layer "AdaptiveAvgPool2d");
                         ("fc", Zoo.Linear 512 1000)]))
           (PyModule "ResNet" false
              [("avgpool", Zoo.Layer "AdaptiveAvgPool2d");
               ("fc", Zoo.Linear 512 1000)])
           [Zoo.Layer "AdaptiveAvgPool2d"; Zoo.Linear 512 1000]
           (Zoo.Linear 512 1000) (PyInt 512));
    [apply (bool_decide_unpack _); vm_compute; exact I | reflexivity ..].
Defined.

(** ** A classifier head of another shape *)

(** X13.  In the mobile/VGG branch the width is read through
    [classifier[-1]]: a network whose [classifier] has no layer ends
    the call in [IndexError], and one whose [classifier] cannot be
    indexed (a single layer, say) ends it in [TypeError]; in both cases
    the network has been constructed before. *)
Theorem mobilenet_vgg_head_shape_errors
    (w : World) (name : string) (pretrained : Obj)
    (model : Obj → string + Obj) (net features classifier : Obj) :
  name ∈ MOBILENET_MODELS ∨ name ∈ VGG_MODELS →
  torchvision_models w name = Some model →
  model pretrained = inr net →
  getattr net "features" = ret features →
  getattr net "classifier" = ret classifier →
  (items classifier = ret [] →
   torchvision_backbone_and_num_features w name pretrained
   = ([EvConstruct name pretrained], inl IndexError))
  ∧ (items classifier = raise TypeError →
     torchvision_backbone_and_num_features w name pretrained
     = ([EvConstruct name pretrained], inl TypeError)).
Proof.
  intros Hname Hreg Hnet Hfeat Hcls.
  assert (E : torchvision_backbone_and_num_features w name pretrained
              = (model <- construct name model pretrained ;;
                 backbone <- getattr model "features" ;;
                 classifier <- getattr model "classifier" ;;
                 head <- getitem_last classifier ;;
                 num_features <- getattr head "in_features" ;;
                 ret (backbone, num_features))).
  { unfold torchvision_backbone_and_num_features. rewrite Hreg.
    by rewrite decide_True by by apply elem_of_app. }
  rewrite E, (construct_ok _ _ _ _ Hnet), bind_external.
  rewrite Hfeat, bind_ret, Hcls, bind_ret. unfold getitem_last.
  split; intros Hitems; by rewrite Hitems.
Qed.

Lemma mobilenet_vgg_head_shape_errors_witness :
  torchvision_backbone_and_num_features
    {| _BOLTS_AVAILABLE := false;
       torchvision_models := λ _, Some (λ _, inr (Zoo.densenet 1024));
       SimCLR_load_from_checkpoint := λ _ _, inl "offline";
       SwAV_load_from_checkpoint := λ _ _, inl "offline" |}
    "vgg11" (PyBool true)
  = ([EvConstruct "vgg11" (PyBool true)], inl TypeError).
Proof.
  apply (mobilenet_vgg_head_shape_errors _ "vgg11" (PyBool true)
           (λ _, inr (Zoo.densenet 1024)) (Zoo.densenet 1024)
           (Zoo.Seq [("conv0", Zoo.Layer "Conv2d");
                     ("norm0", Zoo.Layer "BatchNorm2d");
                     ("relu0", Zoo.Layer "ReLU");
                     ("pool0", Zoo.Layer "MaxPool2d");
                     ("denseblock1", Zoo.Layer "_DenseBlock");
                     ("norm5", Zoo.Layer "BatchNorm2d")])
           (Zoo.Linear 1024 1000));
    [right; apply (bool_decide_unpack _); vm_compute; exact I
    | reflexivity ..].
Defined.

(** ** The tables as a partition *)

(** X14.  No name is listed twice, in one table or across the five
    tables: every supported name belongs to exactly one family, so
    the outcome of the membership tests does not depend on their
    order. *)
Theorem every_name_in_one_family (name : string) :
  NoDup (MOBILENET_MODELS ++ VGG_MODELS ++ RESNET_MODELS
         ++ DENSENET_MODELS ++ BOLTS_MODELS)
  ∧ (name ∈ MOBILENET_MODELS →
     (name ∉ VGG_MODELS) ∧ (name ∉ RESNET_MODELS)
     ∧ (name ∉ DENSENET_MODELS) ∧ (name ∉ BOLTS_MODELS))
  ∧ (name ∈ VGG_MODELS →
     (name ∉ RESNET_MODELS) ∧ (name ∉ DENSENET_MODELS)
     ∧ (name ∉ BOLTS_MODELS))
  ∧ (name ∈ RESNET_MODELS →
     (name ∉ DENSENET_MODELS) ∧ (name ∉ BOLTS_MODELS))
  ∧ (name ∈ DENSENET_MODELS → name ∉ BOLTS_MODELS).
Proof.
  assert (Hnd : NoDup (MOBILENET_MODELS ++ VGG_MODELS ++ RESNET_MODELS
                       ++ DENSENET_MODELS ++ BOLTS_MODELS))
    by (apply (bool_decide_unpack _); vm_compute; exact I).
  split; [done|].
  apply NoDup_app in Hnd as (_ & H1 & Hnd).
  apply NoDup_app in Hnd as (_ & H2 & Hnd).
  apply NoDup_app in Hnd as (_ & H3 & Hnd).
  apply NoDup_app in Hnd as (_ & H4 & _).
  specialize (H1 name). specialize (H2 name).
  specialize (H3 name). specialize (H4 name).
  repeat setoid_rewrite elem_of_app in H1.
  repeat setoid_rewrite elem_of_app in H2.
  repeat setoid_rewrite elem_of_app in H3.
  tauto.
Qed.

Lemma every_name_in_one_family_witness :
  ("resnext50_32x4d" ∉ DENSENET_MODELS) ∧ ("resnext50_32x4d" ∉ BOLTS_MODELS).
Proof.
  apply (proj1 (proj2 (proj2 (proj2
           (every_name_in_one_family "resnext50_32x4d"))))).
  apply (bool_decide_unpack _). vm_compute. exact I.
Defined.

(** ** The two libraries are used independently *)

(** X15.  Resolving a torchvision name uses nothing of the bolts
    library: two worlds with the same answer of the torchvision
    registry for that name give the same trace and outcome, whether or
    not bolts is installed.  Likewise a bolts name uses nothing of the
    torchvision registry. *)
Theorem libraries_independent
    (w1 w2 : World) (name : string) (args : list Obj)
    (kwargs : gmap string Obj) :
  (name ∈ TORCHVISION_MODELS →
   torchvision_models w1 name = torchvision_models w2 name →
   backbone_and_num_features w1 name args kwargs
   = backbone_and_num_features w2 name args kwargs)
  ∧ (name ∈ BOLTS_MODELS →
     _BOLTS_AVAILABLE w1 = _BOLTS_AVAILABLE w2 →
     SimCLR_load_from_checkpoint w1 simclr_imagenet_url false
     = SimCLR_load_from_checkpoint w2 simclr_imagenet_url false →
     SwAV_load_from_checkpoint w1 swav_imagenet_url true
     = SwAV_load_from_checkpoint w2 swav_imagenet_url true →
     backbone_and_num_features w1 name args kwargs
     = backbone_and_num_features w2 name args kwargs).
Proof.
  split.
  - intros Hname Hreg. rewrite !backbone_torchvision_path by done.
    f_equal. unfold torchvision_backbone_and_num_features. by rewrite Hreg.
  - intros Hname Hav Hsimclr Hswav. rewrite !backbone_bolts_path by done.
    destruct (_BOLTS_AVAILABLE w2) eqn:Hav2.
    + apply bolts_table_names in Hname as [-> | ->].
      * rewrite !bolts_available_simclr by done.
        unfold load_simclr_imagenet, load_from_checkpoint. by rewrite Hsimclr.
      * rewrite !bolts_available_swav by done.
        unfold load_swav_imagenet, load_from_checkpoint. by rewrite Hswav.
    + by rewrite !bolts_unavailable.
Qed.

(** A torchvision name resolves alike with and without bolts. *)
Lemma libraries_independent_witness :
  backbone_and_num_features (Zoo.world true) "mobilenet_v2" [] ∅
  = backbone_and_num_features (Zoo.world false) "mobilenet_v2" [] ∅.
Proof.
  apply (proj1 (libraries_independent (Zoo.world true) (Zoo.world false)
                  "mobilenet_v2" [] ∅)).
  - apply (bool_decide_unpack _). vm_compute. exact I.
  - reflexivity.
Defined.
